(** * RoomService of rpl-backend: a shallow embedding and its properties

    Source: [src/room/room.service.ts].  The service is a class of
    [async] methods over three injected collaborators: a validator, a
    logger and the Prisma client.  Every method is embedded as a function
    in a state-and-exception monad [Promise] over a [World] that holds
    the two tables and the log; a rejected promise is the left injection
    and carries the world as it was when the exception was thrown. *)

From Stdlib Require Import ZArith.
From stdpp Require Import gmap strings list fin_maps.

Open Scope Z_scope.
Open Scope string_scope.

(** ** Exceptions *)

(** [HttpException] is what the service throws itself; the other three
    are what its collaborators and the JS runtime can throw. *)
Inductive Exception : Type :=
| HttpException (message : string) (status : Z)
| ValidationError (message : string)
| PrismaError (code : string)
| TypeError (message : string).

(** ** Rows and requests *)

(** Modelled from the spec: the Prisma schema is not among the sources.
    Section 3 of the specification lists the columns of both tables;
    timestamps are milliseconds, [price] is an integer amount. *)
Module RoomType.
Record row : Type := Row {
  id_roomtype : string;
  room_type : string;
  price : Z;
  created_at : Z;
  updated_at : Z;
  deleted : bool
}.
End RoomType.

Module Room.
Record row : Type := Row {
  id_room : string;
  id_roomtype : string;
  status : string;
  created_at : Z;
  updated_at : Z;
  deleted : bool
}.
End Room.

(** Modelled from the spec: [src/models/room.model.ts] is not among the
    sources.  Create requests carry the required fields of section 4;
    update requests replace fields in full or in part, so every field
    but the RoomType key that [update] reads is optional. *)
Module RoomCreateRequest.
Record t : Type := Make { id_roomtype : string; status : string }.
End RoomCreateRequest.

Module RoomUpdateRequest.
Record t : Type := Make { id_roomtype : string; status : option string }.
End RoomUpdateRequest.

Module RoomTypeCreateRequest.
Record t : Type := Make { room_type : string; price : Z }.
End RoomTypeCreateRequest.

Module RoomTypeUpdateRequest.
Record t : Type := Make { room_type : option string; price : option Z }.
End RoomTypeUpdateRequest.

(** ** Responses: JS object literals *)

(** The TypeScript response types are erased at run time: what a method
    returns is the object literal it builds, a list of named values in
    the order they are written. *)
#[warnings="-register-all"]
Inductive value : Type :=
| VString (s : string)
| VNumber (n : Z)
| VDate (t : Z)
| VObject (fields : list (string * value)).

Definition keys (v : value) : list string :=
  match v with
  | VObject fields => fields.*1
  | _ => []
  end.

Definition get (k : string) (v : value) : option value :=
  match v with
  | VObject fields => snd <$> List.find (λ kv, bool_decide (kv.1 = k)) fields
  | _ => None
  end.

(** Every property name that occurs in a value, at any depth. *)
Fixpoint all_keys (v : value) : list string :=
  match v with
  | VObject fields =>
      (fix go (l : list (string * value)) : list string :=
         match l with
         | [] => []
         | (k, x) :: l' => k :: all_keys x ++ go l'
         end) fields
  | _ => []
  end.

(** ** The world: two tables, the server clock, the log *)

Record Database : Type := Db {
  rooms : gmap string Room.row;
  roomTypes : gmap string RoomType.row;
  clock : Z
}.

Record World : Type := Wd {
  db : Database;
  log : list string
}.

(** ** Promises *)

Definition Promise (A : Type) : Type := World → (Exception + A) * World.

Definition resolve {A} (a : A) : Promise A := λ w, (inr a, w).
Definition throw {A} (e : Exception) : Promise A := λ w, (inl e, w).

(** [await p] followed by the rest of the method body. *)
Definition bind {A B} (p : Promise A) (k : A → Promise B) : Promise B :=
  λ w, match p w with
       | (inl e, w') => (inl e, w')
       | (inr a, w') => k a w'
       end.

Notation "'await' x ':=' p 'in' k" := (bind p (λ x, k))
  (at level 10, x name, p at level 100, k at level 200,
   format "'await'  x  ':='  p  'in' '//' k").

(** A synchronous call that may throw, inside an [async] body. *)
Definition lift {A} (r : Exception + A) : Promise A := λ w, (r, w).

(** ** Logger *)

Definition logger_info (message : string) : Promise unit :=
  λ w, (inr tt, Wd (db w) (log w ++ [message])).

(** ** Validator *)

(** [ValidationService.validate(schema, request)] applies the schema; the
    four schemas of [room.validation.ts] are not among the sources and
    are the fields of this interface. *)
Class Validation : Type := {
  RoomValidation_CREATE : RoomCreateRequest.t → Exception + RoomCreateRequest.t;
  RoomValidation_UPDATE : RoomUpdateRequest.t → Exception + RoomUpdateRequest.t;
  RoomtypeValidation_CREATE :
    RoomTypeCreateRequest.t → Exception + RoomTypeCreateRequest.t;
  RoomtypeValidation_UPDATE :
    RoomTypeUpdateRequest.t → Exception + RoomTypeUpdateRequest.t
}.

Definition validate {A} (schema : A → Exception + A) (request : A) : Promise A :=
  lift (schema request).

(** ** Persistence gateway *)

(** Modelled from the spec: the Prisma client and its schema are not
    among the sources.  Section 6 gives the contract consumed per table:
    [findUnique(key, filter)], [findMany(filter, include?)],
    [count(filter)], [create(data)], [update(key, data)], each returning
    the stored row or null / zero when absent.  Identifiers and
    timestamps are assigned by the gateway, never by the caller: a new
    row gets an identifier no row of its table has and the server clock
    as both timestamps, an updated row gets the clock as [updated_at].
    No foreign-key constraint is enforced (section 3). *)
Module prisma.

(** The optional [deleted: ...] conjunct of a [where] clause. *)
Definition matches (flt : option bool) (d : bool) : bool :=
  match flt with
  | None => true
  | Some b => bool_decide (d = b)
  end.

Module roomType.
Record data : Type := Data {
  room_type : option string;
  price : option Z;
  deleted : option bool
}.

Definition apply (d : data) (now : Z) (r : RoomType.row) : RoomType.row :=
  RoomType.Row (RoomType.id_roomtype r)
    (default (RoomType.room_type r) (room_type d))
    (default (RoomType.price r) (price d))
    (RoomType.created_at r)
    now
    (default (RoomType.deleted r) (deleted d)).

Definition select (id : string) (flt : option bool) (d : Database)
  : option RoomType.row :=
  match roomTypes d !! id with
  | Some r => if matches flt (RoomType.deleted r) then Some r else None
  | None => None
  end.

Definition findUnique (id : string) (flt : option bool)
  : Promise (option RoomType.row) :=
  λ w, (inr (select id flt (db w)), w).

Definition count (id : string) (flt : option bool) : Promise Z :=
  λ w, (inr (if select id flt (db w) is Some _ then 1 else 0), w).

Definition findMany (flt : option bool) : Promise (list RoomType.row) :=
  λ w, (inr (List.filter (λ r, matches flt (RoomType.deleted r))
               (map_to_list (roomTypes (db w))).*2), w).

Definition create (request : RoomTypeCreateRequest.t) : Promise RoomType.row :=
  λ w, let d := db w in
       let id := fresh (dom (roomTypes d)) in
       let r := RoomType.Row id (RoomTypeCreateRequest.room_type request)
                  (RoomTypeCreateRequest.price request)
                  (clock d) (clock d) false in
       (inr r, Wd (Db (rooms d) (<[id := r]> (roomTypes d)) (clock d)) (log w)).

Definition update (id : string) (dt : data) : Promise RoomType.row :=
  λ w, let d := db w in
       match roomTypes d !! id with
       | Some r =>
           let r' := apply dt (clock d) r in
           (inr r', Wd (Db (rooms d) (<[id := r']> (roomTypes d)) (clock d)) (log w))
       | None => (inl (PrismaError "P2025"), w)
       end.
End roomType.

Module room.
Record data : Type := Data {
  id_roomtype : option string;
  status : option string;
  deleted : option bool
}.

Definition apply (d : data) (now : Z) (r : Room.row) : Room.row :=
  Room.Row (Room.id_room r)
    (default (Room.id_roomtype r) (id_roomtype d))
    (default (Room.status r) (status d))
    (Room.created_at r)
    now
    (default (Room.deleted r) (deleted d)).

Definition select (id : string) (flt : option bool) (d : Database)
  : option Room.row :=
  match rooms d !! id with
  | Some r => if matches flt (Room.deleted r) then Some r else None
  | None => None
  end.

(** [include: { roomType: true }]: the row together with the RoomType
    row its [id_roomtype] names, or null when there is none. *)
Definition include (d : Database) (r : Room.row)
  : Room.row * option RoomType.row :=
  (r, roomTypes d !! Room.id_roomtype r).

Definition findUnique (id : string) (flt : option bool)
  : Promise (option Room.row) :=
  λ w, (inr (select id flt (db w)), w).

Definition findUnique_include (id : string) (flt : option bool)
  : Promise (option (Room.row * option RoomType.row)) :=
  λ w, (inr (include (db w) <$> select id flt (db w)), w).

Definition findMany_include (flt : option bool)
  : Promise (list (Room.row * option RoomType.row)) :=
  λ w, (inr (include (db w) <$>
               List.filter (λ r, matches flt (Room.deleted r))
                 (map_to_list (rooms (db w))).*2), w).

Definition create (request : RoomCreateRequest.t) : Promise Room.row :=
  λ w, let d := db w in
       let id := fresh (dom (rooms d)) in
       let r := Room.Row id (RoomCreateRequest.id_roomtype request)
                  (RoomCreateRequest.status request)
                  (clock d) (clock d) false in
       (inr r, Wd (Db (<[id := r]> (rooms d)) (roomTypes d) (clock d)) (log w)).

Definition update (id : string) (dt : data) : Promise Room.row :=
  λ w, let d := db w in
       match rooms d !! id with
       | Some r =>
           let r' := apply dt (clock d) r in
           (inr r', Wd (Db (<[id := r']> (rooms d)) (roomTypes d) (clock d)) (log w))
       | None => (inl (PrismaError "P2025"), w)
       end.
End room.

End prisma.

(** ** The service *)

(** The object literals the methods return.  [RoomCreateResponse] is the
    flat Room shape, [RoomDetailResponse] nests the trimmed RoomType
    view, [RoomTypeResponse] is the RoomType shape. *)
Definition RoomCreateResponse (room : Room.row) : value :=
  VObject [("id_room", VString (Room.id_room room));
           ("id_roomtype", VString (Room.id_roomtype room));
           ("status", VString (Room.status room));
           ("created_at", VDate (Room.created_at room));
           ("updated_at", VDate (Room.updated_at room))].

Definition RoomDetailResponse (room : Room.row) (roomType : RoomType.row) : value :=
  VObject [("id_room", VString (Room.id_room room));
           ("id_roomtype", VString (Room.id_roomtype room));
           ("status", VString (Room.status room));
           ("created_at", VDate (Room.created_at room));
           ("updated_at", VDate (Room.updated_at room));
           ("roomtype",
            VObject [("id_roomtype", VString (RoomType.id_roomtype roomType));
                     ("price", VNumber (RoomType.price roomType));
                     ("created_at", VDate (RoomType.created_at roomType));
                     ("updated_at", VDate (RoomType.updated_at roomType))])].

Definition RoomTypeResponse (roomType : RoomType.row) : value :=
  VObject [("id_roomtype", VString (RoomType.id_roomtype roomType));
           ("room_type", VString (RoomType.room_type roomType));
           ("price", VNumber (RoomType.price roomType));
           ("created_at", VDate (RoomType.created_at roomType));
           ("updated_at", VDate (RoomType.updated_at roomType))].

Definition DeleteResponse : value :=
  VObject [("message", VString "Deleted successfully")].

(** The mapper of [findAll] and the literal of [findOne] read
    [room.roomType.id_roomtype]: on a null [roomType] that is a
    [TypeError]. *)
Definition detail (joined : Room.row * option RoomType.row) : Exception + value :=
  match joined.2 with
  | Some roomType => inr (RoomDetailResponse joined.1 roomType)
  | None => inl (TypeError "Cannot read properties of null")
  end.

(** [Array.prototype.map] with a callback that may throw: the first
    exception ends the traversal. *)
Fixpoint map_throw {A B} (f : A → Exception + B) (l : list A) : Exception + list B :=
  match l with
  | [] => inr []
  | a :: l' =>
      match f a with
      | inl e => inl e
      | inr b =>
          match map_throw f l' with
          | inl e => inl e
          | inr bs => inr (b :: bs)
          end
      end
  end.

Section RoomService.
Context {V : Validation}.

Definition create (request : RoomCreateRequest.t) : Promise value :=
  await _ := logger_info "Creating new room" in
  await roomRequest := validate RoomValidation_CREATE request in
  await roomType :=
    prisma.roomType.findUnique (RoomCreateRequest.id_roomtype roomRequest) None in
  match roomType with
  | None => throw (HttpException "Room Type does not exist" 404)
  | Some _ =>
      await room :=
        prisma.room.create
          (RoomCreateRequest.Make (RoomCreateRequest.id_roomtype roomRequest)
             (RoomCreateRequest.status roomRequest)) in
      resolve (RoomCreateResponse room)
  end.

Definition findAll : Promise (list value) :=
  await _ := logger_info "Finding all rooms" in
  await rooms := prisma.room.findMany_include (Some false) in
  lift (map_throw detail rooms).

Definition findOne (id : string) : Promise value :=
  await _ := logger_info ("Finding room with id " ++ id) in
  await room := prisma.room.findUnique_include id (Some false) in
  match room with
  | None => throw (HttpException "Room not found" 404)
  | Some joined => lift (detail joined)
  end.

Definition update (id : string) (request : RoomUpdateRequest.t) : Promise value :=
  await _ := logger_info ("Updating room with id " ++ id) in
  await roomRequest := validate RoomValidation_UPDATE request in
  await roomType :=
    prisma.roomType.findUnique (RoomUpdateRequest.id_roomtype roomRequest) None in
  match roomType with
  | None => throw (HttpException "Room Type does not exist" 404)
  | Some _ =>
      await existingRoom := prisma.room.findUnique id (Some false) in
      match existingRoom with
      | None => throw (HttpException "Room not found" 404)
      | Some _ =>
          await room :=
            prisma.room.update id
              (prisma.room.Data
                 (Some (RoomUpdateRequest.id_roomtype roomRequest))
                 (RoomUpdateRequest.status roomRequest)
                 None) in
          resolve (RoomCreateResponse room)
      end
  end.

Definition delete (id : string) : Promise value :=
  await _ := logger_info ("Deleting room with id " ++ id) in
  await room := prisma.room.findUnique id (Some false) in
  match room with
  | None => throw (HttpException "Room not found" 404)
  | Some _ =>
      await _ := prisma.room.update id (prisma.room.Data None None (Some true)) in
      resolve DeleteResponse
  end.

Definition createRoomType (request : RoomTypeCreateRequest.t) : Promise value :=
  await _ := logger_info "Creating new room type" in
  await roomRequest := validate RoomtypeValidation_CREATE request in
  await roomType := prisma.roomType.create roomRequest in
  resolve (RoomTypeResponse roomType).

Definition findAllRoomType : Promise (list value) :=
  await _ := logger_info "Finding all room types" in
  await roomTypes := prisma.roomType.findMany (Some false) in
  resolve (RoomTypeResponse <$> roomTypes).

Definition findOneRoomType (id : string) : Promise value :=
  await _ := logger_info ("Finding room type with id " ++ id) in
  await roomType := prisma.roomType.findUnique id (Some false) in
  match roomType with
  | None => throw (HttpException "Room Type not found" 404)
  | Some roomType => resolve (RoomTypeResponse roomType)
  end.

Definition updateRoomType (id : string) (request : RoomTypeUpdateRequest.t)
  : Promise value :=
  await _ := logger_info ("Updating room type with id " ++ id) in
  await roomRequest := validate RoomtypeValidation_UPDATE request in
  await existingRoomType := prisma.roomType.count id (Some false) in
  if bool_decide (existingRoomType = 0)
  then throw (HttpException "Room Type not found" 404)
  else
    await roomType :=
      prisma.roomType.update id
        (prisma.roomType.Data
           (RoomTypeUpdateRequest.room_type roomRequest)
           (RoomTypeUpdateRequest.price roomRequest)
           None) in
    resolve (RoomTypeResponse roomType).

Definition deleteRoomType (id : string) : Promise value :=
  await _ := logger_info ("Deleting room type with id " ++ id) in
  await roomType := prisma.roomType.findUnique id (Some false) in
  match roomType with
  | None => throw (HttpException "Room Type not found" 404)
  | Some _ =>
      await _ :=
        prisma.roomType.update id (prisma.roomType.Data None None (Some true)) in
      resolve DeleteResponse
  end.

End RoomService.

(** ** A concrete validator and concrete worlds *)

(** A validator in the manner of the schemas section 4 describes: a
    create request needs a non-empty [status] resp. [room_type]; an update
    request may leave the field out but may not set it to the empty
    string. *)
Definition nonempty_validation : Validation := {|
  RoomValidation_CREATE r :=
    if bool_decide (RoomCreateRequest.status r = "")
    then inl (ValidationError "status") else inr r;
  RoomValidation_UPDATE r :=
    if bool_decide (RoomUpdateRequest.status r = Some "")
    then inl (ValidationError "status") else inr r;
  RoomtypeValidation_CREATE r :=
    if bool_decide (RoomTypeCreateRequest.room_type r = "")
    then inl (ValidationError "room_type") else inr r;
  RoomtypeValidation_UPDATE r :=
    if bool_decide (RoomTypeUpdateRequest.room_type r = Some "")
    then inl (ValidationError "room_type") else inr r
|}.

Definition empty_world : World := Wd (Db ∅ ∅ 1000) [].

(** The environment lets time pass between two requests. *)
Definition advance (dt : Z) (w : World) : World :=
  Wd (Db (rooms (db w)) (roomTypes (db w)) (clock (db w) + dt)) (log w).

(** * Vocabulary of the properties *)

(** ** What "not present or marked deleted" means for each table *)

Definition room_gone (id : string) (d : Database) : Prop :=
  ∀ r, rooms d !! id = Some r → Room.deleted r = true.

Definition roomType_gone (id : string) (d : Database) : Prop :=
  ∀ r, roomTypes d !! id = Some r → RoomType.deleted r = true.

(** Every Room row names a RoomType row that is stored (deleted or not). *)
Definition referential_integrity (d : Database) : Prop :=
  ∀ id r, rooms d !! id = Some r → is_Some (roomTypes d !! Room.id_roomtype r).

#[global] Instance referential_integrity_dec (d : Database) :
  Decision (referential_integrity d).
Proof.
  refine (cast_if (decide (map_Forall
            (λ _ r, is_Some (roomTypes d !! Room.id_roomtype r)) (rooms d))));
    unfold referential_integrity, map_Forall in *; done.
Defined.

(** The world after the opening [logger.info] of a method. *)
Definition logged (message : string) (w : World) : World :=
  Wd (db w) (log w ++ [message]).

(** An object shows a row when its properties are the row's caller-visible
    columns, one for one. *)
Definition shows_room (response : value) (room : Room.row) : Prop :=
  keys response = ["id_room"; "id_roomtype"; "status"; "created_at"; "updated_at"] ∧
  get "id_room" response = Some (VString (Room.id_room room)) ∧
  get "id_roomtype" response = Some (VString (Room.id_roomtype room)) ∧
  get "status" response = Some (VString (Room.status room)) ∧
  get "created_at" response = Some (VDate (Room.created_at room)) ∧
  get "updated_at" response = Some (VDate (Room.updated_at room)).

Definition shows_roomType (response : value) (roomType : RoomType.row) : Prop :=
  keys response =
    ["id_roomtype"; "room_type"; "price"; "created_at"; "updated_at"] ∧
  get "id_roomtype" response = Some (VString (RoomType.id_roomtype roomType)) ∧
  get "room_type" response = Some (VString (RoomType.room_type roomType)) ∧
  get "price" response = Some (VNumber (RoomType.price roomType)) ∧
  get "created_at" response = Some (VDate (RoomType.created_at roomType)) ∧
  get "updated_at" response = Some (VDate (RoomType.updated_at roomType)).

(** The live rows of a table, with their keys, in the order [findMany]
    yields them. *)
Definition live_rooms (d : Database) : list (string * Room.row) :=
  List.filter (λ kv, negb (Room.deleted kv.2)) (map_to_list (rooms d)).

Definition live_roomTypes (d : Database) : list (string * RoomType.row) :=
  List.filter (λ kv, negb (RoomType.deleted kv.2)) (map_to_list (roomTypes d)).

(** The four object literals of the service. *)
Inductive response_shape : value → Prop :=
| shape_flat room : response_shape (RoomCreateResponse room)
| shape_detail room roomType : response_shape (RoomDetailResponse room roomType)
| shape_roomType roomType : response_shape (RoomTypeResponse roomType)
| shape_ack : response_shape DeleteResponse.

(** ** Worlds the service can reach *)

Inductive Call : Type :=
| Create (request : RoomCreateRequest.t)
| FindAll
| FindOne (id : string)
| Update (id : string) (request : RoomUpdateRequest.t)
| Delete (id : string)
| CreateRoomType (request : RoomTypeCreateRequest.t)
| FindAllRoomType
| FindOneRoomType (id : string)
| UpdateRoomType (id : string) (request : RoomTypeUpdateRequest.t)
| DeleteRoomType (id : string).

Section Calls.
Context {V : Validation}.

(** The world a call leaves behind, whether it resolves or rejects. *)
Definition after (c : Call) (w : World) : World :=
  match c with
  | Create request => (create request w).2
  | FindAll => (findAll w).2
  | FindOne id => (findOne id w).2
  | Update id request => (update id request w).2
  | Delete id => (delete id w).2
  | CreateRoomType request => (createRoomType request w).2
  | FindAllRoomType => (findAllRoomType w).2
  | FindOneRoomType id => (findOneRoomType id w).2
  | UpdateRoomType id request => (updateRoomType id request w).2
  | DeleteRoomType id => (deleteRoomType id w).2
  end.

Inductive reachable : World → Prop :=
| reachable_start now : reachable (Wd (Db ∅ ∅ now) [])
| reachable_call c w : reachable w → reachable (after c w)
| reachable_advance dt w : reachable w → reachable (advance dt w).

(** [v] is an object some method resolves with in world [w]; for the two
    list methods, an element of the list. *)
Definition returned (w : World) (v : value) : Prop :=
  (∃ request, (create request w).1 = inr v) ∨
  (∃ vs, (findAll w).1 = inr vs ∧ v ∈ vs) ∨
  (∃ id, (findOne id w).1 = inr v) ∨
  (∃ id request, (update id request w).1 = inr v) ∨
  (∃ id, (delete id w).1 = inr v) ∨
  (∃ request, (createRoomType request w).1 = inr v) ∨
  (∃ vs, (findAllRoomType w).1 = inr vs ∧ v ∈ vs) ∨
  (∃ id, (findOneRoomType id w).1 = inr v) ∨
  (∃ id request, (updateRoomType id request w).1 = inr v) ∨
  (∃ id, (deleteRoomType id w).1 = inr v).

End Calls.

(** ** A sample database *)

Definition deluxe : RoomType.row := RoomType.Row "t0" "Deluxe" 100 1000 1000 false.
Definition suite : RoomType.row := RoomType.Row "t1" "Suite" 250 1000 2000 true.
Definition room_a : Room.row := Room.Row "r0" "t0" "available" 1500 1500 false.
Definition room_b : Room.row := Room.Row "r1" "t1" "booked" 1600 1600 false.
Definition room_c : Room.row := Room.Row "r2" "t0" "closed" 1700 2100 true.

(** Two RoomTypes, [suite] soft-deleted; three Rooms, [room_b] on the
    soft-deleted type and [room_c] soft-deleted itself. *)
Definition hotel : World :=
  Wd (Db (list_to_map [("r0", room_a); ("r1", room_b); ("r2", room_c)])
        (list_to_map [("t0", deluxe); ("t1", suite)])
        3000)
     [].

(** The scenario of the specification: a RoomType is created in the empty
    world, then a Room on it five milliseconds later. *)
Definition deluxe_request : RoomTypeCreateRequest.t :=
  RoomTypeCreateRequest.Make "Deluxe" 100.

Definition after_deluxe : World :=
  advance 5 (createRoomType (V:=nonempty_validation) deluxe_request empty_world).2.

(** ** Vocabulary of the properties of whole calls *)

(** Every row is stored under the identifier it carries. *)
Definition key_consistent (d : Database) : Prop :=
  map_Forall (λ id r, Room.id_room r = id) (rooms d) ∧
  map_Forall (λ id t, RoomType.id_roomtype t = id) (roomTypes d).

#[global] Instance key_consistent_dec (d : Database) : Decision (key_consistent d).
Proof. unfold key_consistent. apply _. Defined.

(** The exception a settled promise was rejected with, if it was. *)
Definition rejection {A} (settled : (Exception + A) * World) : option Exception :=
  match settled.1 with
  | inl e => Some e
  | inr _ => None
  end.

(** The line a method hands to [logger.info] when it is entered. *)
Definition message_of (c : Call) : string :=
  match c with
  | Create _ => "Creating new room"
  | FindAll => "Finding all rooms"
  | FindOne id => "Finding room with id " ++ id
  | Update id _ => "Updating room with id " ++ id
  | Delete id => "Deleting room with id " ++ id
  | CreateRoomType _ => "Creating new room type"
  | FindAllRoomType => "Finding all room types"
  | FindOneRoomType id => "Finding room type with id " ++ id
  | UpdateRoomType id _ => "Updating room type with id " ++ id
  | DeleteRoomType id => "Deleting room type with id " ++ id
  end.

Section Outcomes.
Context {V : Validation}.

Definition rejected (c : Call) (w : World) : option Exception :=
  match c with
  | Create request => rejection (create request w)
  | FindAll => rejection (findAll w)
  | FindOne id => rejection (findOne id w)
  | Update id request => rejection (update id request w)
  | Delete id => rejection (delete id w)
  | CreateRoomType request => rejection (createRoomType request w)
  | FindAllRoomType => rejection (findAllRoomType w)
  | FindOneRoomType id => rejection (findOneRoomType id w)
  | UpdateRoomType id request => rejection (updateRoomType id request w)
  | DeleteRoomType id => rejection (deleteRoomType id w)
  end.


End Outcomes.

(** * Properties *)

(** ** The gateway's keyed lookups *)

Lemma matches_false (d : bool) : prisma.matches (Some false) d = negb d.
Proof. by destruct d. Qed.

Lemma room_select_Some id d r :
  prisma.room.select id (Some false) d = Some r ↔
  rooms d !! id = Some r ∧ Room.deleted r = false.
Proof.
  unfold prisma.room.select. destruct (rooms d !! id) as [r0|] eqn:E.
  - rewrite matches_false. destruct (Room.deleted r0) eqn:D; simpl; split.
    + discriminate.
    + intros [[= ->] ?]. congruence.
    + intros [= ->]. done.
    + intros [[= ->] _]. done.
  - split; [discriminate | intros [? _]; discriminate].
Qed.

Lemma room_select_None id d :
  prisma.room.select id (Some false) d = None ↔ room_gone id d.
Proof.
  unfold prisma.room.select, room_gone.
  destruct (rooms d !! id) as [r0|] eqn:E.
  - rewrite matches_false. destruct (Room.deleted r0) eqn:D; simpl; split.
    + intros _ r [= <-]. done.
    + done.
    + discriminate.
    + intros Hg. specialize (Hg r0 eq_refl). congruence.
  - split; [intros _ r | ]; done.
Qed.

Lemma roomType_select_Some id d r :
  prisma.roomType.select id (Some false) d = Some r ↔
  roomTypes d !! id = Some r ∧ RoomType.deleted r = false.
Proof.
  unfold prisma.roomType.select. destruct (roomTypes d !! id) as [r0|] eqn:E.
  - rewrite matches_false. destruct (RoomType.deleted r0) eqn:D; simpl; split.
    + discriminate.
    + intros [[= ->] ?]. congruence.
    + intros [= ->]. done.
    + intros [[= ->] _]. done.
  - split; [discriminate | intros [? _]; discriminate].
Qed.

Lemma roomType_select_None id d :
  prisma.roomType.select id (Some false) d = None ↔ roomType_gone id d.
Proof.
  unfold prisma.roomType.select, roomType_gone.
  destruct (roomTypes d !! id) as [r0|] eqn:E.
  - rewrite matches_false. destruct (RoomType.deleted r0) eqn:D; simpl; split.
    + intros _ r [= <-]. done.
    + done.
    + discriminate.
    + intros Hg. specialize (Hg r0 eq_refl). congruence.
  - split; [intros _ r | ]; done.
Qed.

Lemma roomType_select_any id d :
  prisma.roomType.select id None d = roomTypes d !! id.
Proof. unfold prisma.roomType.select. by destruct (roomTypes d !! id). Qed.

(** ** One equation per method: what a call does to a world *)

Ltac run :=
  unfold bind, resolve, throw, validate, lift, logger_info, logged,
    prisma.room.findUnique, prisma.room.findUnique_include,
    prisma.room.findMany_include, prisma.room.create, prisma.room.update,
    prisma.roomType.findUnique, prisma.roomType.count,
    prisma.roomType.findMany, prisma.roomType.create,
    prisma.roomType.update; cbv zeta; cbn [db log fst snd].

Section Equations.
Context {V : Validation}.

Lemma findOne_eq id w :
  findOne id w =
  match prisma.room.select id (Some false) (db w) with
  | None => (inl (HttpException "Room not found" 404),
             logged ("Finding room with id " ++ id) w)
  | Some r => (detail (prisma.room.include (db w) r),
               logged ("Finding room with id " ++ id) w)
  end.
Proof.
  unfold findOne. run.
  by destruct (prisma.room.select id (Some false) (db w)).
Qed.

Lemma delete_eq id w :
  delete id w =
  match prisma.room.select id (Some false) (db w) with
  | None => (inl (HttpException "Room not found" 404),
             logged ("Deleting room with id " ++ id) w)
  | Some r =>
      (inr DeleteResponse,
       Wd (Db (<[id := prisma.room.apply (prisma.room.Data None None (Some true))
                         (clock (db w)) r]> (rooms (db w)))
             (roomTypes (db w)) (clock (db w)))
          (log w ++ ["Deleting room with id " ++ id]))
  end.
Proof.
  unfold delete. run.
  destruct (prisma.room.select id (Some false) (db w)) as [r|] eqn:E; [|done].
  apply room_select_Some in E as [E _]. cbn [db log]. by rewrite E.
Qed.

Lemma update_eq id request w :
  update id request w =
  let w1 := logged ("Updating room with id " ++ id) w in
  match RoomValidation_UPDATE request with
  | inl e => (inl e, w1)
  | inr roomRequest =>
      match roomTypes (db w) !! RoomUpdateRequest.id_roomtype roomRequest with
      | None => (inl (HttpException "Room Type does not exist" 404), w1)
      | Some _ =>
          match prisma.room.select id (Some false) (db w) with
          | None => (inl (HttpException "Room not found" 404), w1)
          | Some r =>
              let r' :=
                prisma.room.apply
                  (prisma.room.Data
                     (Some (RoomUpdateRequest.id_roomtype roomRequest))
                     (RoomUpdateRequest.status roomRequest) None)
                  (clock (db w)) r in
              (inr (RoomCreateResponse r'),
               Wd (Db (<[id := r']> (rooms (db w))) (roomTypes (db w))
                     (clock (db w)))
                  (log w1))
          end
      end
  end.
Proof.
  unfold update. run.
  destruct (RoomValidation_UPDATE request) as [e|rq]; [done|].
  cbn [db log]. rewrite roomType_select_any.
  destruct (roomTypes (db w) !! RoomUpdateRequest.id_roomtype rq) as [t|];
    [|done].
  cbn [db log].
  destruct (prisma.room.select id (Some false) (db w)) as [r|] eqn:E; [|done].
  apply room_select_Some in E as [E _]. cbn [db log]. by rewrite E.
Qed.

Lemma create_eq request w :
  create request w =
  let w1 := logged "Creating new room" w in
  match RoomValidation_CREATE request with
  | inl e => (inl e, w1)
  | inr roomRequest =>
      match roomTypes (db w) !! RoomCreateRequest.id_roomtype roomRequest with
      | None => (inl (HttpException "Room Type does not exist" 404), w1)
      | Some _ =>
          let id := fresh (dom (rooms (db w))) in
          let r := Room.Row id (RoomCreateRequest.id_roomtype roomRequest)
                     (RoomCreateRequest.status roomRequest)
                     (clock (db w)) (clock (db w)) false in
          (inr (RoomCreateResponse r),
           Wd (Db (<[id := r]> (rooms (db w))) (roomTypes (db w)) (clock (db w)))
              (log w1))
      end
  end.
Proof.
  unfold create. run.
  destruct (RoomValidation_CREATE request) as [e|rq]; [done|].
  cbn [db log]. rewrite roomType_select_any.
  by destruct (roomTypes (db w) !! RoomCreateRequest.id_roomtype rq).
Qed.

Lemma findAll_eq w :
  findAll w =
  (map_throw detail
     (prisma.room.include (db w) <$>
        List.filter (λ r, negb (Room.deleted r)) (map_to_list (rooms (db w))).*2),
   logged "Finding all rooms" w).
Proof.
  unfold findAll. run.
  rewrite (List.filter_ext _ (λ r, negb (Room.deleted r))); [done|].
  intros r. apply matches_false.
Qed.

Lemma findOneRoomType_eq id w :
  findOneRoomType id w =
  match prisma.roomType.select id (Some false) (db w) with
  | None => (inl (HttpException "Room Type not found" 404),
             logged ("Finding room type with id " ++ id) w)
  | Some r => (inr (RoomTypeResponse r),
               logged ("Finding room type with id " ++ id) w)
  end.
Proof.
  unfold findOneRoomType. run.
  by destruct (prisma.roomType.select id (Some false) (db w)).
Qed.

Lemma deleteRoomType_eq id w :
  deleteRoomType id w =
  match prisma.roomType.select id (Some false) (db w) with
  | None => (inl (HttpException "Room Type not found" 404),
             logged ("Deleting room type with id " ++ id) w)
  | Some r =>
      (inr DeleteResponse,
       Wd (Db (rooms (db w))
             (<[id := prisma.roomType.apply
                        (prisma.roomType.Data None None (Some true))
                        (clock (db w)) r]> (roomTypes (db w)))
             (clock (db w)))
          (log w ++ ["Deleting room type with id " ++ id]))
  end.
Proof.
  unfold deleteRoomType. run.
  destruct (prisma.roomType.select id (Some false) (db w)) as [r|] eqn:E; [|done].
  apply roomType_select_Some in E as [E _]. cbn [db log]. by rewrite E.
Qed.

Lemma updateRoomType_eq id request w :
  updateRoomType id request w =
  let w1 := logged ("Updating room type with id " ++ id) w in
  match RoomtypeValidation_UPDATE request with
  | inl e => (inl e, w1)
  | inr roomRequest =>
      match prisma.roomType.select id (Some false) (db w) with
      | None => (inl (HttpException "Room Type not found" 404), w1)
      | Some r =>
          let r' :=
            prisma.roomType.apply
              (prisma.roomType.Data
                 (RoomTypeUpdateRequest.room_type roomRequest)
                 (RoomTypeUpdateRequest.price roomRequest) None)
              (clock (db w)) r in
          (inr (RoomTypeResponse r'),
           Wd (Db (rooms (db w)) (<[id := r']> (roomTypes (db w)))
                 (clock (db w)))
              (log w1))
      end
  end.
Proof.
  unfold updateRoomType. run.
  destruct (RoomtypeValidation_UPDATE request) as [e|rq]; [done|].
  cbn [db log].
  destruct (prisma.roomType.select id (Some false) (db w)) as [r|] eqn:E;
    simpl; [|done].
  apply roomType_select_Some in E as [E _]. cbn [db log]. by rewrite E.
Qed.

Lemma createRoomType_eq request w :
  createRoomType request w =
  let w1 := logged "Creating new room type" w in
  match RoomtypeValidation_CREATE request with
  | inl e => (inl e, w1)
  | inr roomRequest =>
      let id := fresh (dom (roomTypes (db w))) in
      let r := RoomType.Row id (RoomTypeCreateRequest.room_type roomRequest)
                 (RoomTypeCreateRequest.price roomRequest)
                 (clock (db w)) (clock (db w)) false in
      (inr (RoomTypeResponse r),
       Wd (Db (rooms (db w)) (<[id := r]> (roomTypes (db w))) (clock (db w)))
          (log w1))
  end.
Proof.
  unfold createRoomType. run.
  by destruct (RoomtypeValidation_CREATE request) as [e|rq].
Qed.

Lemma findAllRoomType_eq w :
  findAllRoomType w =
  (inr (RoomTypeResponse <$>
          List.filter (λ r, negb (RoomType.deleted r))
            (map_to_list (roomTypes (db w))).*2),
   logged "Finding all room types" w).
Proof.
  unfold findAllRoomType. run.
  rewrite (List.filter_ext _ (λ r, negb (RoomType.deleted r))); [done|].
  intros r. apply matches_false.
Qed.

End Equations.

Section NotFound.
Context {V : Validation}.

(** C1, as amended.  For an id that is absent or soft-deleted, [findOne],
    [delete], [findOneRoomType] and [deleteRoomType] reject with a 404
    and leave the database as it was.  [update] and [updateRoomType]
    validate the body first: a body the validator rejects fails with the
    validator's exception, a body it accepts fails with a 404; in both
    cases the database is as it was. *)
Theorem gone_id_rejects_without_write (w : World) :
  (∀ id, room_gone id (db w) →
     ((findOne id w).1 = inl (HttpException "Room not found" 404) ∧
      db (findOne id w).2 = db w) ∧
     ((delete id w).1 = inl (HttpException "Room not found" 404) ∧
      db (delete id w).2 = db w) ∧
     (∀ request,
        match RoomValidation_UPDATE request with
        | inl e => (update id request w).1 = inl e
        | inr _ =>
            (update id request w).1 =
              inl (HttpException "Room Type does not exist" 404) ∨
            (update id request w).1 = inl (HttpException "Room not found" 404)
        end ∧
        db (update id request w).2 = db w)) ∧
  (∀ id, roomType_gone id (db w) →
     ((findOneRoomType id w).1 = inl (HttpException "Room Type not found" 404) ∧
      db (findOneRoomType id w).2 = db w) ∧
     ((deleteRoomType id w).1 = inl (HttpException "Room Type not found" 404) ∧
      db (deleteRoomType id w).2 = db w) ∧
     (∀ request,
        match RoomtypeValidation_UPDATE request with
        | inl e => (updateRoomType id request w).1 = inl e
        | inr _ =>
            (updateRoomType id request w).1 =
              inl (HttpException "Room Type not found" 404)
        end ∧
        db (updateRoomType id request w).2 = db w)).
Proof.
  split; intros id Hgone.
  - apply room_select_None in Hgone.
    rewrite findOne_eq, delete_eq, Hgone. do 2 (split; [done|]).
    intros request. rewrite update_eq. cbv zeta.
    destruct (RoomValidation_UPDATE request) as [e|rq]; [done|].
    destruct (roomTypes (db w) !! RoomUpdateRequest.id_roomtype rq).
    + rewrite Hgone. split; [by right | done].
    + split; [by left | done].
  - apply roomType_select_None in Hgone.
    rewrite findOneRoomType_eq, deleteRoomType_eq, Hgone. do 2 (split; [done|]).
    intros request. rewrite updateRoomType_eq. cbv zeta.
    destruct (RoomtypeValidation_UPDATE request) as [e|rq]; [done|].
    by rewrite Hgone.
Qed.

End NotFound.

(** The soft-deleted [room_c] and an id no RoomType has. *)
Lemma gone_id_rejects_without_write_hotel :
  (room_gone "r2" (db hotel) ∧
   (delete "r2" hotel).1 = inl (HttpException "Room not found" 404) ∧
   db (delete "r2" hotel).2 = db hotel ∧
   db (update (V:=nonempty_validation) "r2" (RoomUpdateRequest.Make "t0" None)
         hotel).2 = db hotel) ∧
  (roomType_gone "t7" (db hotel) ∧
   (deleteRoomType "t7" hotel).1 = inl (HttpException "Room Type not found" 404) ∧
   db (deleteRoomType "t7" hotel).2 = db hotel ∧
   (updateRoomType (V:=nonempty_validation) "t7"
      (RoomTypeUpdateRequest.Make None (Some 120)) hotel).1 =
     inl (HttpException "Room Type not found" 404)).
Proof.
  assert (Hr : room_gone "r2" (db hotel))
    by (apply room_select_None; vm_compute; reflexivity).
  assert (Ht : roomType_gone "t7" (db hotel))
    by (apply roomType_select_None; vm_compute; reflexivity).
  destruct (gone_id_rejects_without_write (V:=nonempty_validation) hotel)
    as [Hroom Htype].
  split.
  - destruct (Hroom "r2" Hr) as (_ & [Hd Hs] & Hu).
    split; [exact Hr|]. split; [exact Hd|]. split; [exact Hs|].
    exact (proj2 (Hu (RoomUpdateRequest.Make "t0" None))).
  - destruct (Htype "t7" Ht) as (_ & [Hd Hs] & Hu).
    split; [exact Ht|]. split; [exact Hd|]. split; [exact Hs|].
    exact (proj1 (Hu (RoomTypeUpdateRequest.Make None (Some 120)))).
Defined.

(** C1 as written fails for the two update methods: on an id that is gone
    and a body the validator rejects, the exception is the validator's,
    not a 404. *)
Lemma update_gone_id_rejected_body_is_not_404 :
  room_gone "r2" (db hotel) ∧
  (update (V:=nonempty_validation) "r2"
     (RoomUpdateRequest.Make "t0" (Some "")) hotel).1 =
    inl (ValidationError "status") ∧
  ¬ (∃ message,
       (update (V:=nonempty_validation) "r2"
          (RoomUpdateRequest.Make "t0" (Some "")) hotel).1 =
         inl (HttpException message 404)).
Proof.
  split; [apply room_select_None; vm_compute; reflexivity|].
  split; [vm_compute; reflexivity|].
  intros [message Hm]. vm_compute in Hm. discriminate Hm.
Qed.

(** ** The RoomType check of [create] and [update] *)

Lemma fresh_room_id (d : Database) : rooms d !! fresh (dom (rooms d)) = None.
Proof. apply not_elem_of_dom, is_fresh. Qed.

Lemma fresh_roomType_id (d : Database) :
  roomTypes d !! fresh (dom (roomTypes d)) = None.
Proof. apply not_elem_of_dom, is_fresh. Qed.

Section RoomTypeCheck.
Context {V : Validation}.

(** C4.  A Room create or update whose validated [id_roomtype] names no
    RoomType row rejects with 404 "Room Type does not exist", and the
    database, hence every Room row, is as it was. *)
Theorem unknown_roomtype_rejects_without_write (w : World) :
  (∀ request roomRequest,
     RoomValidation_CREATE request = inr roomRequest →
     roomTypes (db w) !! RoomCreateRequest.id_roomtype roomRequest = None →
     (create request w).1 = inl (HttpException "Room Type does not exist" 404) ∧
     db (create request w).2 = db w) ∧
  (∀ id request roomRequest,
     RoomValidation_UPDATE request = inr roomRequest →
     roomTypes (db w) !! RoomUpdateRequest.id_roomtype roomRequest = None →
     (update id request w).1 = inl (HttpException "Room Type does not exist" 404) ∧
     db (update id request w).2 = db w).
Proof.
  split.
  - intros request rq Hv Hrt. rewrite create_eq. cbv zeta. by rewrite Hv, Hrt.
  - intros id request rq Hv Hrt. rewrite update_eq. cbv zeta. by rewrite Hv, Hrt.
Qed.

(** C2.  The check reads the RoomType row by id alone.  When the row it
    finds is soft-deleted, [create] still resolves and stores a new,
    non-deleted Room that names it; [update] of a live Room still
    resolves and stores the Room with that [id_roomtype]. *)
Theorem soft_deleted_roomtype_is_accepted (w : World) :
  (∀ request roomRequest t,
     RoomValidation_CREATE request = inr roomRequest →
     roomTypes (db w) !! RoomCreateRequest.id_roomtype roomRequest = Some t →
     RoomType.deleted t = true →
     ∃ room,
       (create request w).1 = inr (RoomCreateResponse room) ∧
       rooms (db w) !! Room.id_room room = None ∧
       rooms (db (create request w).2) !! Room.id_room room = Some room ∧
       Room.id_roomtype room = RoomCreateRequest.id_roomtype roomRequest ∧
       Room.deleted room = false ∧
       roomTypes (db (create request w).2) = roomTypes (db w)) ∧
  (∀ id request roomRequest t old,
     RoomValidation_UPDATE request = inr roomRequest →
     roomTypes (db w) !! RoomUpdateRequest.id_roomtype roomRequest = Some t →
     RoomType.deleted t = true →
     rooms (db w) !! id = Some old →
     Room.deleted old = false →
     ∃ room,
       (update id request w).1 = inr (RoomCreateResponse room) ∧
       rooms (db (update id request w).2) !! id = Some room ∧
       Room.id_room room = Room.id_room old ∧
       Room.id_roomtype room = RoomUpdateRequest.id_roomtype roomRequest ∧
       Room.deleted room = false ∧
       roomTypes (db (update id request w).2) = roomTypes (db w)).
Proof.
  split.
  - intros request rq t Hv Hrt _. rewrite create_eq. cbv zeta.
    rewrite Hv, Hrt. eexists. split; [reflexivity|]. cbn.
    split; [apply fresh_room_id|]. by rewrite lookup_insert_eq.
  - intros id request rq t old Hv Hrt _ Hold Hlive. rewrite update_eq. cbv zeta.
    rewrite Hv, Hrt.
    rewrite (proj2 (room_select_Some id (db w) old) (conj Hold Hlive)).
    eexists. split; [reflexivity|]. cbn.
    by rewrite lookup_insert_eq.
Qed.

(** C7.  A create call the validator accepts (for a Room: naming a stored
    RoomType) resolves with an object whose five properties are the
    five columns of the row the gateway stored under a new id, and that
    row has [created_at = updated_at]. *)
Theorem create_returns_the_stored_row (w : World) :
  (∀ request roomRequest t,
     RoomValidation_CREATE request = inr roomRequest →
     roomTypes (db w) !! RoomCreateRequest.id_roomtype roomRequest = Some t →
     ∃ room response,
       (create request w).1 = inr response ∧
       rooms (db w) !! Room.id_room room = None ∧
       rooms (db (create request w).2) !! Room.id_room room = Some room ∧
       shows_room response room ∧
       Room.id_roomtype room = RoomCreateRequest.id_roomtype roomRequest ∧
       Room.status room = RoomCreateRequest.status roomRequest ∧
       Room.created_at room = Room.updated_at room) ∧
  (∀ request roomRequest,
     RoomtypeValidation_CREATE request = inr roomRequest →
     ∃ roomType response,
       (createRoomType request w).1 = inr response ∧
       roomTypes (db w) !! RoomType.id_roomtype roomType = None ∧
       roomTypes (db (createRoomType request w).2)
         !! RoomType.id_roomtype roomType = Some roomType ∧
       shows_roomType response roomType ∧
       RoomType.room_type roomType = RoomTypeCreateRequest.room_type roomRequest ∧
       RoomType.price roomType = RoomTypeCreateRequest.price roomRequest ∧
       RoomType.created_at roomType = RoomType.updated_at roomType).
Proof.
  split.
  - intros request rq t Hv Hrt. rewrite create_eq. cbv zeta. rewrite Hv, Hrt.
    match goal with
    | |- context [inr (RoomCreateResponse ?r)] => exists r
    end.
    eexists. split; [reflexivity|]. cbn.
    split; [apply fresh_room_id|]. by rewrite lookup_insert_eq.
  - intros request rq Hv. rewrite createRoomType_eq. cbv zeta. rewrite Hv.
    match goal with
    | |- context [inr (RoomTypeResponse ?r)] => exists r
    end.
    eexists. split; [reflexivity|]. cbn.
    split; [apply fresh_roomType_id|]. by rewrite lookup_insert_eq.
Qed.

End RoomTypeCheck.

(** On [hotel], no RoomType has id ["t9"]. *)
Lemma unknown_roomtype_rejects_without_write_hotel :
  (RoomValidation_CREATE (Validation:=nonempty_validation)
     (RoomCreateRequest.Make "t9" "available") =
     inr (RoomCreateRequest.Make "t9" "available") ∧
   roomTypes (db hotel) !! "t9" = None ∧
   (create (V:=nonempty_validation) (RoomCreateRequest.Make "t9" "available")
      hotel).1 = inl (HttpException "Room Type does not exist" 404) ∧
   db (create (V:=nonempty_validation) (RoomCreateRequest.Make "t9" "available")
         hotel).2 = db hotel) ∧
  (RoomValidation_UPDATE (Validation:=nonempty_validation)
     (RoomUpdateRequest.Make "t9" None) = inr (RoomUpdateRequest.Make "t9" None) ∧
   (update (V:=nonempty_validation) "r0" (RoomUpdateRequest.Make "t9" None)
      hotel).1 = inl (HttpException "Room Type does not exist" 404) ∧
   db (update (V:=nonempty_validation) "r0" (RoomUpdateRequest.Make "t9" None)
         hotel).2 = db hotel).
Proof.
  assert (Hc : RoomValidation_CREATE (Validation:=nonempty_validation)
                 (RoomCreateRequest.Make "t9" "available") =
               inr (RoomCreateRequest.Make "t9" "available"))
    by (vm_compute; reflexivity).
  assert (Hu : RoomValidation_UPDATE (Validation:=nonempty_validation)
                 (RoomUpdateRequest.Make "t9" None) =
               inr (RoomUpdateRequest.Make "t9" None))
    by (vm_compute; reflexivity).
  assert (Ht : roomTypes (db hotel) !! "t9" = None) by (vm_compute; reflexivity).
  split.
  - split; [exact Hc|]. split; [exact Ht|].
    exact (proj1 (unknown_roomtype_rejects_without_write
                    (V:=nonempty_validation) hotel) _ _ Hc Ht).
  - split; [exact Hu|].
    exact (proj2 (unknown_roomtype_rejects_without_write
                    (V:=nonempty_validation) hotel) "r0" _ _ Hu Ht).
Defined.

(** On [hotel], RoomType ["t1"] is soft-deleted and Room ["r0"] is live. *)
Lemma soft_deleted_roomtype_is_accepted_hotel :
  (roomTypes (db hotel) !! "t1" = Some suite ∧ RoomType.deleted suite = true) ∧
  (∃ room,
     (create (V:=nonempty_validation) (RoomCreateRequest.Make "t1" "available")
        hotel).1 = inr (RoomCreateResponse room) ∧
     rooms (db hotel) !! Room.id_room room = None ∧
     rooms (db (create (V:=nonempty_validation)
                  (RoomCreateRequest.Make "t1" "available") hotel).2)
       !! Room.id_room room = Some room ∧
     Room.id_roomtype room = "t1" ∧
     Room.deleted room = false ∧
     roomTypes (db (create (V:=nonempty_validation)
                      (RoomCreateRequest.Make "t1" "available") hotel).2) =
       roomTypes (db hotel)) ∧
  (∃ room,
     (update (V:=nonempty_validation) "r0" (RoomUpdateRequest.Make "t1" None)
        hotel).1 = inr (RoomCreateResponse room) ∧
     rooms (db (update (V:=nonempty_validation) "r0"
                  (RoomUpdateRequest.Make "t1" None) hotel).2) !! "r0" =
       Some room ∧
     Room.id_room room = "r0" ∧
     Room.id_roomtype room = "t1" ∧
     Room.deleted room = false ∧
     roomTypes (db (update (V:=nonempty_validation) "r0"
                      (RoomUpdateRequest.Make "t1" None) hotel).2) =
       roomTypes (db hotel)).
Proof.
  assert (Ht : roomTypes (db hotel) !! "t1" = Some suite)
    by (vm_compute; reflexivity).
  split; [split; [exact Ht | reflexivity]|]. split.
  - apply (proj1 (soft_deleted_roomtype_is_accepted (V:=nonempty_validation) hotel)
             (RoomCreateRequest.Make "t1" "available")
             (RoomCreateRequest.Make "t1" "available") suite);
      vm_compute; reflexivity.
  - apply (proj2 (soft_deleted_roomtype_is_accepted (V:=nonempty_validation) hotel)
             "r0" (RoomUpdateRequest.Make "t1" None)
             (RoomUpdateRequest.Make "t1" None) suite room_a);
      vm_compute; reflexivity.
Defined.

Lemma create_returns_the_stored_row_scenario :
  (RoomtypeValidation_CREATE (Validation:=nonempty_validation) deluxe_request =
     inr deluxe_request ∧
   ∃ roomType response,
     (createRoomType (V:=nonempty_validation) deluxe_request empty_world).1 =
       inr response ∧
     roomTypes (db (createRoomType (V:=nonempty_validation) deluxe_request
                      empty_world).2) !! RoomType.id_roomtype roomType =
       Some roomType ∧
     shows_roomType response roomType ∧
     RoomType.room_type roomType = "Deluxe" ∧
     RoomType.price roomType = 100 ∧
     RoomType.created_at roomType = RoomType.updated_at roomType) ∧
  (RoomValidation_CREATE (Validation:=nonempty_validation)
     (RoomCreateRequest.Make "0" "available") =
     inr (RoomCreateRequest.Make "0" "available") ∧
   is_Some (roomTypes (db after_deluxe) !! "0") ∧
   ∃ room response,
     (create (V:=nonempty_validation) (RoomCreateRequest.Make "0" "available")
        after_deluxe).1 = inr response ∧
     rooms (db (create (V:=nonempty_validation)
                  (RoomCreateRequest.Make "0" "available") after_deluxe).2)
       !! Room.id_room room = Some room ∧
     shows_room response room ∧
     Room.id_roomtype room = "0" ∧
     Room.status room = "available" ∧
     Room.created_at room = Room.updated_at room).
Proof.
  assert (Ht : RoomtypeValidation_CREATE (Validation:=nonempty_validation)
                 deluxe_request = inr deluxe_request)
    by (vm_compute; reflexivity).
  assert (Hr : RoomValidation_CREATE (Validation:=nonempty_validation)
                 (RoomCreateRequest.Make "0" "available") =
               inr (RoomCreateRequest.Make "0" "available"))
    by (vm_compute; reflexivity).
  assert (Hs : roomTypes (db after_deluxe) !! "0" =
               Some (RoomType.Row "0" "Deluxe" 100 1000 1000 false))
    by (vm_compute; reflexivity).
  split.
  - split; [exact Ht|].
    destruct (proj2 (create_returns_the_stored_row (V:=nonempty_validation)
                       empty_world) _ _ Ht)
      as (roomType & response & ? & _ & ? & ? & ? & ? & ?).
    by exists roomType, response.
  - split; [exact Hr|]. split; [by rewrite Hs|].
    destruct (proj1 (create_returns_the_stored_row (V:=nonempty_validation)
                       after_deluxe) _ _ _ Hr Hs)
      as (room & response & ? & _ & ? & ? & ? & ? & ?).
    by exists room, response.
Defined.

(** ** Soft delete *)

Lemma room_gone_after_delete id w : room_gone id (db (delete id w).2).
Proof.
  rewrite delete_eq.
  destruct (prisma.room.select id (Some false) (db w)) as [r|] eqn:E.
  - intros r'. cbn. rewrite lookup_insert_eq. by intros [= <-].
  - by apply room_select_None in E.
Qed.

Lemma roomType_gone_after_delete id w :
  roomType_gone id (db (deleteRoomType id w).2).
Proof.
  rewrite deleteRoomType_eq.
  destruct (prisma.roomType.select id (Some false) (db w)) as [r|] eqn:E.
  - intros r'. cbn. rewrite lookup_insert_eq. by intros [= <-].
  - by apply roomType_select_None in E.
Qed.

(** Reads of a world in which RoomType [tid] is soft-deleted. *)
Lemma reads_of_soft_deleted_roomtype (w : World) (tid : string) (t : RoomType.row) :
  roomTypes (db w) !! tid = Some t →
  RoomType.deleted t = true →
  (findOneRoomType tid w).1 = inl (HttpException "Room Type not found" 404) ∧
  ∀ rid room,
    rooms (db w) !! rid = Some room →
    Room.deleted room = false →
    Room.id_roomtype room = tid →
    (findOne rid w).1 = inr (RoomDetailResponse room t).
Proof.
  intros Ht Hd. split.
  - rewrite findOneRoomType_eq.
    assert (roomType_gone tid (db w)) as Hg by (intros t'; congruence).
    apply roomType_select_None in Hg. by rewrite Hg.
  - intros rid room Hr Hlive Href. rewrite findOne_eq.
    rewrite (proj2 (room_select_Some rid (db w) room) (conj Hr Hlive)).
    unfold detail, prisma.room.include. cbn. by rewrite Href, Ht.
Qed.

(** C3.  Once [deleteRoomType] has resolved for an id, [findOneRoomType]
    on that id rejects with 404, while [findOne] on every live Room that
    names the id resolves, and the nested [roomtype] it returns is built
    from the soft-deleted row. *)
Theorem room_outlives_its_roomtype (w : World) (tid : string) (ack : value) :
  (deleteRoomType tid w).1 = inr ack →
  (findOneRoomType tid (deleteRoomType tid w).2).1 =
    inl (HttpException "Room Type not found" 404) ∧
  ∃ t,
    roomTypes (db (deleteRoomType tid w).2) !! tid = Some t ∧
    RoomType.deleted t = true ∧
    ∀ rid room,
      rooms (db (deleteRoomType tid w).2) !! rid = Some room →
      Room.deleted room = false →
      Room.id_roomtype room = tid →
      (findOne rid (deleteRoomType tid w).2).1 = inr (RoomDetailResponse room t).
Proof.
  intros Hok.
  assert (∃ t, roomTypes (db (deleteRoomType tid w).2) !! tid = Some t ∧
               RoomType.deleted t = true) as (t & Ht & Hd).
  { rewrite deleteRoomType_eq in Hok |- *.
    destruct (prisma.roomType.select tid (Some false) (db w)); [|discriminate].
    eexists. cbn. rewrite lookup_insert_eq. done. }
  destruct (reads_of_soft_deleted_roomtype _ tid t Ht Hd) as [H1 H2].
  split; [exact H1|]. by exists t.
Qed.

Lemma room_outlives_its_roomtype_hotel :
  (deleteRoomType "t0" hotel).1 = inr DeleteResponse ∧
  (findOneRoomType "t0" (deleteRoomType "t0" hotel).2).1 =
    inl (HttpException "Room Type not found" 404) ∧
  ∃ t,
    RoomType.deleted t = true ∧
    (findOne "r0" (deleteRoomType "t0" hotel).2).1 =
      inr (RoomDetailResponse room_a t).
Proof.
  assert (Hok : (deleteRoomType "t0" hotel).1 = inr DeleteResponse)
    by (vm_compute; reflexivity).
  split; [exact Hok|].
  destruct (room_outlives_its_roomtype hotel "t0" DeleteResponse Hok)
    as (Hone & t & _ & Hd & Hrooms).
  split; [exact Hone|]. exists t. split; [exact Hd|].
  apply Hrooms; vm_compute; reflexivity.
Defined.

(** C5.  [delete] on a row that is already soft-deleted rejects with 404
    and writes nothing, for Rooms and for RoomTypes; hence the second of
    two deletes of one id always rejects, whatever the first one did. *)
Theorem delete_of_deleted_rejects (w : World) :
  (∀ id r,
     rooms (db w) !! id = Some r → Room.deleted r = true →
     (delete id w).1 = inl (HttpException "Room not found" 404) ∧
     db (delete id w).2 = db w) ∧
  (∀ id t,
     roomTypes (db w) !! id = Some t → RoomType.deleted t = true →
     (deleteRoomType id w).1 = inl (HttpException "Room Type not found" 404) ∧
     db (deleteRoomType id w).2 = db w) ∧
  (∀ id,
     (delete id (delete id w).2).1 = inl (HttpException "Room not found" 404) ∧
     db (delete id (delete id w).2).2 = db (delete id w).2) ∧
  (∀ id,
     (deleteRoomType id (deleteRoomType id w).2).1 =
       inl (HttpException "Room Type not found" 404) ∧
     db (deleteRoomType id (deleteRoomType id w).2).2 =
       db (deleteRoomType id w).2).
Proof.
  assert (Hroom : ∀ w id, room_gone id (db w) →
            (delete id w).1 = inl (HttpException "Room not found" 404) ∧
            db (delete id w).2 = db w).
  { intros w0 id Hg. apply room_select_None in Hg. by rewrite delete_eq, Hg. }
  assert (Htype : ∀ w id, roomType_gone id (db w) →
            (deleteRoomType id w).1 = inl (HttpException "Room Type not found" 404) ∧
            db (deleteRoomType id w).2 = db w).
  { intros w0 id Hg. apply roomType_select_None in Hg.
    by rewrite deleteRoomType_eq, Hg. }
  repeat apply conj.
  - intros id r Hr Hd. apply Hroom. intros r'. congruence.
  - intros id t Ht Hd. apply Htype. intros t'. congruence.
  - intros id. apply Hroom, room_gone_after_delete.
  - intros id. apply Htype, roomType_gone_after_delete.
Qed.

Lemma delete_of_deleted_rejects_hotel :
  (rooms (db hotel) !! "r2" = Some room_c ∧ Room.deleted room_c = true ∧
   (delete "r2" hotel).1 = inl (HttpException "Room not found" 404) ∧
   db (delete "r2" hotel).2 = db hotel) ∧
  (roomTypes (db hotel) !! "t1" = Some suite ∧ RoomType.deleted suite = true ∧
   (deleteRoomType "t1" hotel).1 = inl (HttpException "Room Type not found" 404) ∧
   db (deleteRoomType "t1" hotel).2 = db hotel) ∧
  ((delete "r0" hotel).1 = inr DeleteResponse ∧
   (delete "r0" (delete "r0" hotel).2).1 =
     inl (HttpException "Room not found" 404)).
Proof.
  assert (Hr : rooms (db hotel) !! "r2" = Some room_c) by (vm_compute; reflexivity).
  assert (Ht : roomTypes (db hotel) !! "t1" = Some suite)
    by (vm_compute; reflexivity).
  destruct (delete_of_deleted_rejects hotel) as (Hroom & Htype & Htwice & _).
  split; [|split].
  - split; [exact Hr|]. split; [reflexivity|]. exact (Hroom "r2" room_c Hr eq_refl).
  - split; [exact Ht|]. split; [reflexivity|]. exact (Htype "t1" suite Ht eq_refl).
  - split; [vm_compute; reflexivity|]. exact (proj1 (Htwice "r0")).
Defined.

(** C9.  A delete that resolves rewrites one row: the target keeps its id,
    its columns other than [deleted] and [updated_at], and has [deleted]
    set; every other row of its table and the whole other table are
    untouched. *)
Theorem delete_writes_only_the_flag (w : World) (id : string) (ack : value) :
  ((delete id w).1 = inr ack →
   ∃ old new,
     rooms (db w) !! id = Some old ∧
     rooms (db (delete id w).2) !! id = Some new ∧
     Room.id_room new = Room.id_room old ∧
     Room.status new = Room.status old ∧
     Room.id_roomtype new = Room.id_roomtype old ∧
     Room.created_at new = Room.created_at old ∧
     Room.deleted new = true ∧
     (∀ id', id' ≠ id →
        rooms (db (delete id w).2) !! id' = rooms (db w) !! id') ∧
     roomTypes (db (delete id w).2) = roomTypes (db w)) ∧
  ((deleteRoomType id w).1 = inr ack →
   ∃ old new,
     roomTypes (db w) !! id = Some old ∧
     roomTypes (db (deleteRoomType id w).2) !! id = Some new ∧
     RoomType.id_roomtype new = RoomType.id_roomtype old ∧
     RoomType.room_type new = RoomType.room_type old ∧
     RoomType.price new = RoomType.price old ∧
     RoomType.created_at new = RoomType.created_at old ∧
     RoomType.deleted new = true ∧
     (∀ id', id' ≠ id →
        roomTypes (db (deleteRoomType id w).2) !! id' = roomTypes (db w) !! id') ∧
     rooms (db (deleteRoomType id w).2) = rooms (db w)).
Proof.
  split.
  - rewrite delete_eq.
    destruct (prisma.room.select id (Some false) (db w)) as [old|] eqn:E;
      [intros _ | discriminate].
    apply room_select_Some in E as [Hold _].
    exists old. eexists. split; [exact Hold|]. cbn.
    split; [apply lookup_insert_eq|]. repeat (split; [reflexivity|]).
    split; [|reflexivity]. intros id' Hne. by rewrite lookup_insert_ne.
  - rewrite deleteRoomType_eq.
    destruct (prisma.roomType.select id (Some false) (db w)) as [old|] eqn:E;
      [intros _ | discriminate].
    apply roomType_select_Some in E as [Hold _].
    exists old. eexists. split; [exact Hold|]. cbn.
    split; [apply lookup_insert_eq|]. repeat (split; [reflexivity|]).
    split; [|reflexivity]. intros id' Hne. by rewrite lookup_insert_ne.
Qed.

Lemma delete_writes_only_the_flag_hotel :
  ((delete "r0" hotel).1 = inr DeleteResponse ∧
   ∃ new,
     rooms (db (delete "r0" hotel).2) !! "r0" = Some new ∧
     Room.status new = "available" ∧
     Room.id_roomtype new = "t0" ∧
     Room.deleted new = true ∧
     rooms (db (delete "r0" hotel).2) !! "r1" = Some room_b) ∧
  ((deleteRoomType "t0" hotel).1 = inr DeleteResponse ∧
   ∃ new,
     roomTypes (db (deleteRoomType "t0" hotel).2) !! "t0" = Some new ∧
     RoomType.room_type new = "Deluxe" ∧
     RoomType.price new = 100 ∧
     RoomType.deleted new = true ∧
     rooms (db (deleteRoomType "t0" hotel).2) = rooms (db hotel)).
Proof.
  assert (Hr : (delete "r0" hotel).1 = inr DeleteResponse)
    by (vm_compute; reflexivity).
  assert (Ht : (deleteRoomType "t0" hotel).1 = inr DeleteResponse)
    by (vm_compute; reflexivity).
  split.
  - split; [exact Hr|].
    destruct (proj1 (delete_writes_only_the_flag hotel "r0" DeleteResponse) Hr)
      as (old & new & Hold & Hnew & _ & Hs & Hi & _ & Hd & Hother & _).
    assert (Ha : rooms (db hotel) !! "r0" = Some room_a)
      by (vm_compute; reflexivity).
    rewrite Ha in Hold. injection Hold as <-.
    exists new. split; [exact Hnew|]. split; [exact Hs|]. split; [exact Hi|].
    split; [exact Hd|]. rewrite Hother; [vm_compute; reflexivity | discriminate].
  - split; [exact Ht|].
    destruct (proj2 (delete_writes_only_the_flag hotel "t0" DeleteResponse) Ht)
      as (old & new & Hold & Hnew & _ & Hn & Hp & _ & Hd & _ & Hrooms).
    assert (Ha : roomTypes (db hotel) !! "t0" = Some deluxe)
      by (vm_compute; reflexivity).
    rewrite Ha in Hold. injection Hold as <-.
    by exists new.
Defined.

(** C10.  [deleteRoomType] looks at the RoomType row alone.  It rejects
    with 404 exactly when no live RoomType row has the id; when one has,
    it resolves, the row becomes soft-deleted, and the Room table is not
    read or written: every live Room that names the id is still stored,
    still live, and now names a soft-deleted RoomType. *)
Theorem deleteRoomType_ignores_rooms (w : World) (id : string) :
  ((deleteRoomType id w).1 = inl (HttpException "Room Type not found" 404) ↔
   ¬ ∃ t, roomTypes (db w) !! id = Some t ∧ RoomType.deleted t = false) ∧
  ((∃ t, roomTypes (db w) !! id = Some t ∧ RoomType.deleted t = false) →
   (deleteRoomType id w).1 = inr DeleteResponse ∧
   rooms (db (deleteRoomType id w).2) = rooms (db w) ∧
   (∃ t', roomTypes (db (deleteRoomType id w).2) !! id = Some t' ∧
          RoomType.deleted t' = true) ∧
   ∀ rid room,
     rooms (db w) !! rid = Some room →
     Room.deleted room = false →
     Room.id_roomtype room = id →
     rooms (db (deleteRoomType id w).2) !! rid = Some room).
Proof.
  rewrite deleteRoomType_eq.
  destruct (prisma.roomType.select id (Some false) (db w)) as [t|] eqn:E.
  - apply roomType_select_Some in E as [Ht Hd]. cbn. split.
    + split; [discriminate|]. intros Hno. destruct Hno. by exists t.
    + intros _. split; [reflexivity|]. split; [reflexivity|]. split.
      * eexists. by rewrite lookup_insert_eq.
      * by intros rid room Hr _ _.
  - apply roomType_select_None in E. cbn. split.
    + split; [|done]. intros _ (t & Ht & Hd). specialize (E t Ht). congruence.
    + intros (t & Ht & Hd). specialize (E t Ht). congruence.
Qed.

(** On [hotel], the live [room_a] names the live RoomType ["t0"]. *)
Lemma deleteRoomType_ignores_rooms_hotel :
  (roomTypes (db hotel) !! "t0" = Some deluxe ∧ RoomType.deleted deluxe = false) ∧
  (rooms (db hotel) !! "r0" = Some room_a ∧ Room.deleted room_a = false ∧
   Room.id_roomtype room_a = "t0") ∧
  (deleteRoomType "t0" hotel).1 = inr DeleteResponse ∧
  (∃ t', roomTypes (db (deleteRoomType "t0" hotel).2) !! "t0" = Some t' ∧
         RoomType.deleted t' = true) ∧
  rooms (db (deleteRoomType "t0" hotel).2) !! "r0" = Some room_a.
Proof.
  assert (Ht : roomTypes (db hotel) !! "t0" = Some deluxe)
    by (vm_compute; reflexivity).
  assert (Hr : rooms (db hotel) !! "r0" = Some room_a) by (vm_compute; reflexivity).
  split; [split; [exact Ht | reflexivity]|].
  split; [split; [exact Hr | split; reflexivity]|].
  destruct (proj2 (deleteRoomType_ignores_rooms hotel "t0"))
    as (Hok & _ & Hsoft & Hrooms).
  { exists deluxe. split; [exact Ht | reflexivity]. }
  split; [exact Hok|]. split; [exact Hsoft|].
  apply (Hrooms "r0" room_a Hr); reflexivity.
Defined.

(** ** Lists *)

Lemma filter_snd {K A} (f : A → bool) (l : list (K * A)) :
  List.filter f l.*2 = (List.filter (λ kv, f kv.2) l).*2.
Proof.
  induction l as [|[k a] l IH]; [done|]. cbn.
  destruct (f a); cbn; by rewrite IH.
Qed.

Lemma elem_of_filter_bool {A} (f : A → bool) (l : list A) (x : A) :
  x ∈ List.filter f l ↔ x ∈ l ∧ f x = true.
Proof. rewrite !list_elem_of_In. apply List.filter_In. Qed.

Lemma NoDup_fst_filter {K A} (f : K * A → bool) (l : list (K * A)) :
  NoDup l.*1 → NoDup (List.filter f l).*1.
Proof.
  induction l as [|[k a] l IH]; [done|]. cbn.
  intros [Hk Hl]%NoDup_cons. destruct (f (k, a)); [|by apply IH]. cbn.
  apply NoDup_cons. split; [|by apply IH].
  intros ([k' a'] & -> & Hin%elem_of_filter_bool)%list_elem_of_fmap.
  apply Hk, list_elem_of_fmap. exists (k', a'). by destruct Hin.
Qed.

Lemma live_rooms_spec d id r :
  (id, r) ∈ live_rooms d ↔ rooms d !! id = Some r ∧ Room.deleted r = false.
Proof.
  unfold live_rooms. rewrite elem_of_filter_bool, elem_of_map_to_list. cbn.
  by rewrite negb_true_iff.
Qed.

Lemma live_roomTypes_spec d id t :
  (id, t) ∈ live_roomTypes d ↔
  roomTypes d !! id = Some t ∧ RoomType.deleted t = false.
Proof.
  unfold live_roomTypes. rewrite elem_of_filter_bool, elem_of_map_to_list. cbn.
  by rewrite negb_true_iff.
Qed.

Lemma map_throw_detail_inv (d : Database) (l : list Room.row) (vs : list value) :
  map_throw detail (prisma.room.include d <$> l) = inr vs →
  Forall2 (λ r v, ∃ t, roomTypes d !! Room.id_roomtype r = Some t ∧
                       v = RoomDetailResponse r t) l vs.
Proof.
  revert vs. induction l as [|r l IH]; intros vs; cbn.
  - intros [= <-]. constructor.
  - unfold detail at 1, prisma.room.include at 1. cbn.
    destruct (roomTypes d !! Room.id_roomtype r) as [t|] eqn:Ht; [|discriminate].
    destruct (map_throw detail (prisma.room.include d <$> l)) as [e|vs0];
      [discriminate|].
    intros [= <-]. constructor; [by exists t | by apply IH].
Qed.

Lemma map_throw_detail_total (d : Database) (l : list Room.row) :
  Forall (λ r, is_Some (roomTypes d !! Room.id_roomtype r)) l →
  ∃ vs, map_throw detail (prisma.room.include d <$> l) = inr vs.
Proof.
  induction 1 as [|r l [t Ht] _ [vs IH]].
  - by exists [].
  - exists (RoomDetailResponse r t :: vs). cbn.
    unfold detail at 1, prisma.room.include at 1. cbn. by rewrite Ht, IH.
Qed.

(** C6.  [findAllRoomType] and [findAll] return one element per live row
    and nothing else: the responses are, position by position, the views
    of the rows with [deleted = false], each row taken once, so a row
    with [deleted = true] has no element.  [findAllRoomType] always
    resolves; [findAll] resolves when every Room row names a stored
    RoomType, as it does in every world the service can reach
    ([reachable_referential_integrity]). *)
Theorem lists_return_exactly_the_live_rows (w : World) :
  (∃ live responses,
     NoDup live.*1 ∧
     (∀ id t, (id, t) ∈ live ↔
        roomTypes (db w) !! id = Some t ∧ RoomType.deleted t = false) ∧
     (findAllRoomType w).1 = inr responses ∧
     Forall2 (λ kv v, v = RoomTypeResponse kv.2) live responses ∧
     db (findAllRoomType w).2 = db w) ∧
  (∃ live,
     NoDup live.*1 ∧
     (∀ id r, (id, r) ∈ live ↔
        rooms (db w) !! id = Some r ∧ Room.deleted r = false) ∧
     (∀ responses,
        (findAll w).1 = inr responses →
        Forall2 (λ kv v, ∃ t, roomTypes (db w) !! Room.id_roomtype kv.2 = Some t ∧
                              v = RoomDetailResponse kv.2 t) live responses) ∧
     (referential_integrity (db w) → ∃ responses, (findAll w).1 = inr responses) ∧
     db (findAll w).2 = db w).
Proof.
  split.
  - exists (live_roomTypes (db w)), (RoomTypeResponse <$> (live_roomTypes (db w)).*2).
    split; [apply NoDup_fst_filter, NoDup_fst_map_to_list|].
    split; [apply live_roomTypes_spec|].
    rewrite findAllRoomType_eq, filter_snd. cbn. split; [done|]. split; [|done].
    rewrite <- list_fmap_compose. apply Forall2_fmap_r, Forall_Forall2_diag.
    by apply Forall_forall.
  - exists (live_rooms (db w)).
    split; [apply NoDup_fst_filter, NoDup_fst_map_to_list|].
    split; [apply live_rooms_spec|].
    rewrite findAll_eq, filter_snd. cbn. split; [|split; [|done]].
    + intros responses Hok%map_throw_detail_inv. by apply Forall2_fmap_l in Hok.
    + intros Hri. apply map_throw_detail_total, Forall_fmap, Forall_forall.
      intros [id r] [Hr _]%live_rooms_spec. by apply (Hri id).
Qed.

(** On [hotel] the soft-deleted [room_c] is not listed, the live [room_a]
    is. *)
Lemma lists_return_exactly_the_live_rows_hotel :
  referential_integrity (db hotel) ∧
  ∃ live responses,
    ("r0", room_a) ∈ live ∧
    (("r2", room_c) ∉ live) ∧
    (findAll hotel).1 = inr responses ∧
    Forall2 (λ kv v, ∃ t, roomTypes (db hotel) !! Room.id_roomtype kv.2 = Some t ∧
                          v = RoomDetailResponse kv.2 t) live responses.
Proof.
  assert (Hri : referential_integrity (db hotel))
    by (apply (bool_decide_unpack _); vm_compute; reflexivity).
  split; [exact Hri|].
  destruct (proj2 (lists_return_exactly_the_live_rows hotel))
    as (live & _ & Hlive & Hall & Hok & _).
  destruct (Hok Hri) as [responses Hres].
  exists live, responses. split; [|split; [|split; [exact Hres | by apply Hall]]].
  - apply Hlive. split; vm_compute; reflexivity.
  - intros [Hc Hd]%Hlive. discriminate Hd.
Defined.

(** ** Calls keep every Room on a stored RoomType *)

Section Reachable.
Context {V : Validation}.

Lemma after_referential_integrity (c : Call) (w : World) :
  referential_integrity (db w) → referential_integrity (db (after c w)).
Proof.
  intros Hri. destruct c as [rq| |id|id rq|id|rq| |id|id rq|id]; unfold after.
  - rewrite create_eq. cbv zeta.
    destruct (RoomValidation_CREATE rq) as [e|vr]; [done|].
    destruct (roomTypes (db w) !! RoomCreateRequest.id_roomtype vr) eqn:Ht;
      [|done].
    intros id' r'. cbn. rewrite lookup_insert.
    case_decide; [intros [= <-]; cbn; by rewrite Ht | apply Hri].
  - by rewrite findAll_eq.
  - rewrite findOne_eq. by destruct (prisma.room.select _ _ _).
  - rewrite update_eq. cbv zeta.
    destruct (RoomValidation_UPDATE rq) as [e|vr]; [done|].
    destruct (roomTypes (db w) !! RoomUpdateRequest.id_roomtype vr) eqn:Ht;
      [|done].
    destruct (prisma.room.select id (Some false) (db w)); [|done].
    intros id' r'. cbn. rewrite lookup_insert.
    case_decide; [intros [= <-]; cbn; by rewrite Ht | apply Hri].
  - rewrite delete_eq.
    destruct (prisma.room.select id (Some false) (db w)) as [r|] eqn:E; [|done].
    apply room_select_Some in E as [Hr _].
    intros id' r'. cbn. rewrite lookup_insert.
    case_decide; [intros [= <-]; cbn; by apply (Hri id) | apply Hri].
  - rewrite createRoomType_eq. cbv zeta.
    destruct (RoomtypeValidation_CREATE rq) as [e|vr]; [done|].
    intros id' r' Hr'. cbn in *. apply lookup_insert_is_Some'. right.
    by apply (Hri id').
  - by rewrite findAllRoomType_eq.
  - rewrite findOneRoomType_eq. by destruct (prisma.roomType.select _ _ _).
  - rewrite updateRoomType_eq. cbv zeta.
    destruct (RoomtypeValidation_UPDATE rq) as [e|vr]; [done|].
    destruct (prisma.roomType.select id (Some false) (db w)); [|done].
    intros id' r' Hr'. cbn in *. apply lookup_insert_is_Some'. right.
    by apply (Hri id').
  - rewrite deleteRoomType_eq.
    destruct (prisma.roomType.select id (Some false) (db w)); [|done].
    intros id' r' Hr'. cbn in *. apply lookup_insert_is_Some'. right.
    by apply (Hri id').
Qed.

(** No call leaves a Room that names a missing RoomType row. *)
Lemma reachable_referential_integrity (w : World) :
  reachable w → referential_integrity (db w).
Proof.
  induction 1 as [now|c w _ IH|dt w _ IH].
  - intros id r. cbn. by rewrite lookup_empty.
  - by apply after_referential_integrity.
  - exact IH.
Qed.

End Reachable.

(** ** The shape of what is returned *)

Lemma map_throw_elem {A B} (f : A → Exception + B) (l : list A) (bs : list B) (b : B) :
  map_throw f l = inr bs → b ∈ bs → ∃ a, a ∈ l ∧ f a = inr b.
Proof.
  revert bs. induction l as [|a l IH]; intros bs; cbn.
  - intros [= <-] Hin. by apply elem_of_nil in Hin.
  - destruct (f a) as [e|b0] eqn:Ea; [discriminate|].
    destruct (map_throw f l) as [e|bs0]; [discriminate|].
    intros [= <-] [->|Hin]%elem_of_cons.
    + exists a. split; [left | done].
    + destruct (IH bs0 eq_refl Hin) as (a' & Ha' & Hf).
      exists a'. split; [by right | done].
Qed.

Lemma detail_inr joined v :
  detail joined = inr v → ∃ room roomType, v = RoomDetailResponse room roomType.
Proof.
  unfold detail. destruct joined as [room [roomType|]]; cbn; [|discriminate].
  intros [= <-]. by exists room, roomType.
Qed.

Section Shapes.
Context {V : Validation}.

Lemma findOne_detail w id v :
  (findOne id w).1 = inr v →
  ∃ room roomType, v = RoomDetailResponse room roomType.
Proof.
  rewrite findOne_eq.
  destruct (prisma.room.select id (Some false) (db w)); [|discriminate].
  apply detail_inr.
Qed.

Lemma findAll_detail w vs v :
  (findAll w).1 = inr vs → v ∈ vs →
  ∃ room roomType, v = RoomDetailResponse room roomType.
Proof.
  rewrite findAll_eq. cbn. intros Hvs Hin.
  destruct (map_throw_elem _ _ _ _ Hvs Hin) as (joined & _ & Hd).
  by apply detail_inr in Hd.
Qed.

Lemma returned_shape w v : returned w v → response_shape v.
Proof.
  unfold returned.
  intros [[rq Hr]|[(vs & Hr & Hin)|[[id Hr]|[(id & rq & Hr)|[[id Hr]|
         [[rq Hr]|[(vs & Hr & Hin)|[[id Hr]|[(id & rq & Hr)|[id Hr]]]]]]]]]].
  - rewrite create_eq in Hr. cbv zeta in Hr.
    destruct (RoomValidation_CREATE rq); [discriminate|].
    destruct (roomTypes (db w) !! _); [|discriminate].
    injection Hr as <-. constructor.
  - destruct (findAll_detail _ _ _ Hr Hin) as (room & t & ->). constructor.
  - destruct (findOne_detail _ _ _ Hr) as (room & t & ->). constructor.
  - rewrite update_eq in Hr. cbv zeta in Hr.
    destruct (RoomValidation_UPDATE rq); [discriminate|].
    destruct (roomTypes (db w) !! _); [|discriminate].
    destruct (prisma.room.select id (Some false) (db w)); [|discriminate].
    injection Hr as <-. constructor.
  - rewrite delete_eq in Hr.
    destruct (prisma.room.select id (Some false) (db w)); [|discriminate].
    injection Hr as <-. constructor.
  - rewrite createRoomType_eq in Hr. cbv zeta in Hr.
    destruct (RoomtypeValidation_CREATE rq); [discriminate|].
    injection Hr as <-. constructor.
  - rewrite findAllRoomType_eq in Hr. injection Hr as <-.
    apply list_elem_of_fmap in Hin as (t & -> & _). constructor.
  - rewrite findOneRoomType_eq in Hr.
    destruct (prisma.roomType.select id (Some false) (db w)); [|discriminate].
    injection Hr as <-. constructor.
  - rewrite updateRoomType_eq in Hr. cbv zeta in Hr.
    destruct (RoomtypeValidation_UPDATE rq); [discriminate|].
    destruct (prisma.roomType.select id (Some false) (db w)); [|discriminate].
    injection Hr as <-. constructor.
  - rewrite deleteRoomType_eq in Hr.
    destruct (prisma.roomType.select id (Some false) (db w)); [|discriminate].
    injection Hr as <-. constructor.
Qed.

(** C8.  Every element [findAll] returns and every object [findOne]
    returns has a [roomtype] property whose own properties are exactly
    [id_roomtype], [price], [created_at], [updated_at]; no [room_type]
    occurs in it at any depth.  No object any method resolves with has
    a [deleted] property at any depth. *)
Theorem responses_trim_roomtype_and_hide_deleted (w : World) (v : value) :
  ((∃ id, (findOne id w).1 = inr v) ∨ (∃ vs, (findAll w).1 = inr vs ∧ v ∈ vs) →
   (∃ nested,
      get "roomtype" v = Some nested ∧
      keys nested = ["id_roomtype"; "price"; "created_at"; "updated_at"]) ∧
   "room_type" ∉ all_keys v) ∧
  (returned w v → "deleted" ∉ all_keys v).
Proof.
  split.
  - intros Hv.
    assert (∃ room roomType, v = RoomDetailResponse room roomType)
      as (room & t & ->).
    { destruct Hv as [[id Hr]|(vs & Hr & Hin)];
        eauto using findOne_detail, findAll_detail. }
    split; [eexists; split; reflexivity|].
    cbn. rewrite list_elem_of_In. cbn. intuition discriminate.
  - intros Hv%returned_shape.
    destruct Hv; cbn; rewrite list_elem_of_In; cbn; intuition discriminate.
Qed.

End Shapes.

Lemma responses_trim_roomtype_and_hide_deleted_hotel :
  (findOne "r1" hotel).1 = inr (RoomDetailResponse room_b suite) ∧
  (∃ nested,
     get "roomtype" (RoomDetailResponse room_b suite) = Some nested ∧
     keys nested = ["id_roomtype"; "price"; "created_at"; "updated_at"]) ∧
  ("room_type" ∉ all_keys (RoomDetailResponse room_b suite)) ∧
  ("deleted" ∉ all_keys (RoomDetailResponse room_b suite)).
Proof.
  assert (Hr : (findOne "r1" hotel).1 = inr (RoomDetailResponse room_b suite))
    by (vm_compute; reflexivity).
  split; [exact Hr|].
  destruct (responses_trim_roomtype_and_hide_deleted (V:=nonempty_validation)
              hotel (RoomDetailResponse room_b suite)) as [Hnest Hdel].
  destruct Hnest as [Hn Hname]; [left; by exists "r1"|].
  split; [exact Hn|]. split; [exact Hname|].
  apply Hdel. right. right. left. by exists "r1".
Defined.

(** ** The scenario of section 8, run from the empty world *)

Example scenario_room_survives_roomtype :
  let w1 := (createRoomType (V:=nonempty_validation) deluxe_request empty_world).2 in
  let w2 := (create (V:=nonempty_validation)
               (RoomCreateRequest.Make "0" "available") (advance 5 w1)).2 in
  let w3 := (deleteRoomType "0" (advance 5 w2)).2 in
  (findOneRoomType "0" w3).1 = inl (HttpException "Room Type not found" 404) ∧
  (findOne "0" w3).1 =
    inr (RoomDetailResponse
           (Room.Row "0" "0" "available" 1005 1005 false)
           (RoomType.Row "0" "Deluxe" 100 1000 1010 true)).
Proof. split; vm_compute; reflexivity. Qed.

(** * Properties of whole calls *)

(** ** What a call writes *)

Section Writes.
Context {V : Validation}.

(** A call leaves the database as it was or rewrites exactly one key of
    one table; which, and with what row, is read off the method. *)
Lemma after_cases (c : Call) (w : World) :
  db (after c w) = db w ∨
  (∃ request vr t,
     c = Create request ∧ RoomValidation_CREATE request = inr vr ∧
     roomTypes (db w) !! RoomCreateRequest.id_roomtype vr = Some t ∧
     db (after c w) =
       Db (<[fresh (dom (rooms (db w))) :=
               Room.Row (fresh (dom (rooms (db w))))
                 (RoomCreateRequest.id_roomtype vr) (RoomCreateRequest.status vr)
                 (clock (db w)) (clock (db w)) false]> (rooms (db w)))
          (roomTypes (db w)) (clock (db w))) ∨
  (∃ id request vr t r,
     c = Update id request ∧ RoomValidation_UPDATE request = inr vr ∧
     roomTypes (db w) !! RoomUpdateRequest.id_roomtype vr = Some t ∧
     rooms (db w) !! id = Some r ∧ Room.deleted r = false ∧
     db (after c w) =
       Db (<[id := Room.Row (Room.id_room r) (RoomUpdateRequest.id_roomtype vr)
                     (default (Room.status r) (RoomUpdateRequest.status vr))
                     (Room.created_at r) (clock (db w)) (Room.deleted r)]>
             (rooms (db w)))
          (roomTypes (db w)) (clock (db w))) ∨
  (∃ id r,
     c = Delete id ∧ rooms (db w) !! id = Some r ∧ Room.deleted r = false ∧
     db (after c w) =
       Db (<[id := Room.Row (Room.id_room r) (Room.id_roomtype r) (Room.status r)
                     (Room.created_at r) (clock (db w)) true]> (rooms (db w)))
          (roomTypes (db w)) (clock (db w))) ∨
  (∃ request vr,
     c = CreateRoomType request ∧ RoomtypeValidation_CREATE request = inr vr ∧
     db (after c w) =
       Db (rooms (db w))
          (<[fresh (dom (roomTypes (db w))) :=
               RoomType.Row (fresh (dom (roomTypes (db w))))
                 (RoomTypeCreateRequest.room_type vr)
                 (RoomTypeCreateRequest.price vr)
                 (clock (db w)) (clock (db w)) false]> (roomTypes (db w)))
          (clock (db w))) ∨
  (∃ id request vr t,
     c = UpdateRoomType id request ∧ RoomtypeValidation_UPDATE request = inr vr ∧
     roomTypes (db w) !! id = Some t ∧ RoomType.deleted t = false ∧
     db (after c w) =
       Db (rooms (db w))
          (<[id := RoomType.Row (RoomType.id_roomtype t)
                     (default (RoomType.room_type t)
                        (RoomTypeUpdateRequest.room_type vr))
                     (default (RoomType.price t) (RoomTypeUpdateRequest.price vr))
                     (RoomType.created_at t) (clock (db w)) (RoomType.deleted t)]>
             (roomTypes (db w)))
          (clock (db w))) ∨
  (∃ id t,
     c = DeleteRoomType id ∧ roomTypes (db w) !! id = Some t ∧
     RoomType.deleted t = false ∧
     db (after c w) =
       Db (rooms (db w))
          (<[id := RoomType.Row (RoomType.id_roomtype t) (RoomType.room_type t)
                     (RoomType.price t) (RoomType.created_at t) (clock (db w))
                     true]> (roomTypes (db w)))
          (clock (db w))).
Proof.
  destruct c as [rq| |id|id rq|id|rq| |id|id rq|id]; unfold after.
  - rewrite create_eq. cbv zeta.
    destruct (RoomValidation_CREATE rq) as [e|vr] eqn:Hv; [by left|].
    destruct (roomTypes (db w) !! RoomCreateRequest.id_roomtype vr) as [t|] eqn:Ht;
      [|by left].
    right. left. by exists rq, vr, t.
  - left. by rewrite findAll_eq.
  - left. rewrite findOne_eq. by destruct (prisma.room.select _ _ _).
  - rewrite update_eq. cbv zeta.
    destruct (RoomValidation_UPDATE rq) as [e|vr] eqn:Hv; [by left|].
    destruct (roomTypes (db w) !! RoomUpdateRequest.id_roomtype vr) as [t|] eqn:Ht;
      [|by left].
    destruct (prisma.room.select id (Some false) (db w)) as [r|] eqn:E; [|by left].
    apply room_select_Some in E as [Hr Hd].
    do 2 right. left. by exists id, rq, vr, t, r.
  - rewrite delete_eq.
    destruct (prisma.room.select id (Some false) (db w)) as [r|] eqn:E; [|by left].
    apply room_select_Some in E as [Hr Hd].
    do 3 right. left. exists id, r. cbn. by rewrite Hd.
  - rewrite createRoomType_eq. cbv zeta.
    destruct (RoomtypeValidation_CREATE rq) as [e|vr] eqn:Hv; [by left|].
    do 4 right. left. by exists rq, vr.
  - left. by rewrite findAllRoomType_eq.
  - left. rewrite findOneRoomType_eq. by destruct (prisma.roomType.select _ _ _).
  - rewrite updateRoomType_eq. cbv zeta.
    destruct (RoomtypeValidation_UPDATE rq) as [e|vr] eqn:Hv; [by left|].
    destruct (prisma.roomType.select id (Some false) (db w)) as [t|] eqn:E;
      [|by left].
    apply roomType_select_Some in E as [Ht Hd].
    do 5 right. left. by exists id, rq, vr, t.
  - rewrite deleteRoomType_eq.
    destruct (prisma.roomType.select id (Some false) (db w)) as [t|] eqn:E;
      [|by left].
    apply roomType_select_Some in E as [Ht Hd].
    do 6 right. exists id, t. cbn. by rewrite Hd.
Qed.

End Writes.

(** ** The life of a row *)

Ltac write_cases c w :=
  destruct (after_cases c w) as
    [Heq|[(rq & vr & t0 & -> & Hv & Ht0 & Heq)
         |[(wid & rq & vr & t0 & r0 & -> & Hv & Ht0 & Hr0 & Hd0 & Heq)
         |[(wid & r0 & -> & Hr0 & Hd0 & Heq)
         |[(rq & vr & -> & Hv & Heq)
         |[(wid & rq & vr & t0 & -> & Hv & Ht0 & Hd0 & Heq)
         |(wid & t0 & -> & Ht0 & Hd0 & Heq)]]]]]];
  rewrite Heq; clear Heq; cbn [rooms roomTypes clock].

Section Lifecycle.
Context {V : Validation}.

(** X1.  No call removes a row, and no call changes the identifier or the
    [created_at] of a row that is stored: there is no hard delete, and
    the two columns are written once. *)
Theorem no_call_removes_or_renames_a_row (c : Call) (w : World) :
  (∀ id r,
     rooms (db w) !! id = Some r →
     ∃ r', rooms (db (after c w)) !! id = Some r' ∧
           Room.id_room r' = Room.id_room r ∧
           Room.created_at r' = Room.created_at r) ∧
  (∀ id t,
     roomTypes (db w) !! id = Some t →
     ∃ t', roomTypes (db (after c w)) !! id = Some t' ∧
           RoomType.id_roomtype t' = RoomType.id_roomtype t ∧
           RoomType.created_at t' = RoomType.created_at t).
Proof.
  split.
  - intros id r Hr. write_cases c w; eauto.
    + rewrite lookup_insert_ne; [eauto|]. intros <-.
      by rewrite fresh_room_id in Hr.
    + rewrite lookup_insert. case_decide as Hk; [subst wid|eauto].
      rewrite Hr0 in Hr. injection Hr as <-. eauto.
    + rewrite lookup_insert. case_decide as Hk; [subst wid|eauto].
      rewrite Hr0 in Hr. injection Hr as <-. eauto.
  - intros id t Ht. write_cases c w; eauto.
    + rewrite lookup_insert_ne; [eauto|]. intros <-.
      by rewrite fresh_roomType_id in Ht.
    + rewrite lookup_insert. case_decide as Hk; [subst wid|eauto].
      rewrite Ht0 in Ht. injection Ht as <-. eauto.
    + rewrite lookup_insert. case_decide as Hk; [subst wid|eauto].
      rewrite Ht0 in Ht. injection Ht as <-. eauto.
Qed.

(** X2.  A soft-deleted row is never written again: whatever the call,
    the row is stored afterwards exactly as it was, so nothing revives
    or edits it. *)
Theorem soft_deleted_rows_are_frozen (c : Call) (w : World) :
  (∀ id r,
     rooms (db w) !! id = Some r → Room.deleted r = true →
     rooms (db (after c w)) !! id = Some r) ∧
  (∀ id t,
     roomTypes (db w) !! id = Some t → RoomType.deleted t = true →
     roomTypes (db (after c w)) !! id = Some t).
Proof.
  split.
  - intros id r Hr Hd. write_cases c w; try done.
    + rewrite lookup_insert_ne; [done|]. intros <-.
      by rewrite fresh_room_id in Hr.
    + rewrite lookup_insert_ne; [done|]. intros <-. congruence.
    + rewrite lookup_insert_ne; [done|]. intros <-. congruence.
  - intros id t Ht Hd. write_cases c w; try done.
    + rewrite lookup_insert_ne; [done|]. intros <-.
      by rewrite fresh_roomType_id in Ht.
    + rewrite lookup_insert_ne; [done|]. intros <-. congruence.
    + rewrite lookup_insert_ne; [done|]. intros <-. congruence.
Qed.

(** X3.  The flag is set by the delete of that id and by nothing else: if
    a row is live before a call and soft-deleted after it, the call was
    [delete] (for a Room) resp. [deleteRoomType] (for a RoomType) on
    that very id. *)
Theorem only_delete_sets_the_flag (c : Call) (w : World) :
  (∀ id r r',
     rooms (db w) !! id = Some r → Room.deleted r = false →
     rooms (db (after c w)) !! id = Some r' → Room.deleted r' = true →
     c = Delete id) ∧
  (∀ id t t',
     roomTypes (db w) !! id = Some t → RoomType.deleted t = false →
     roomTypes (db (after c w)) !! id = Some t' → RoomType.deleted t' = true →
     c = DeleteRoomType id).
Proof.
  split.
  - intros id r r' Hr Hd. write_cases c w; try congruence.
    + rewrite lookup_insert. case_decide; [|congruence].
      intros [= <-]. discriminate.
    + rewrite lookup_insert. case_decide; [|congruence].
      intros [= <-]. cbn. congruence.
    + rewrite lookup_insert. case_decide; congruence.
  - intros id t t' Ht Hd. write_cases c w; try congruence.
    + rewrite lookup_insert. case_decide; [|congruence].
      intros [= <-]. discriminate.
    + rewrite lookup_insert. case_decide; [|congruence].
      intros [= <-]. cbn. congruence.
    + rewrite lookup_insert. case_decide; congruence.
Qed.

Lemma after_key_consistent (c : Call) (w : World) :
  key_consistent (db w) → key_consistent (db (after c w)).
Proof.
  intros [Hr Ht]. write_cases c w; split; try done.
  - apply map_Forall_insert_2; [done|exact Hr].
  - apply map_Forall_insert_2; [exact (Hr _ _ Hr0)|exact Hr].
  - apply map_Forall_insert_2; [exact (Hr _ _ Hr0)|exact Hr].
  - apply map_Forall_insert_2; [done|exact Ht].
  - apply map_Forall_insert_2; [exact (Ht _ _ Ht0)|exact Ht].
  - apply map_Forall_insert_2; [exact (Ht _ _ Ht0)|exact Ht].
Qed.

(** X4.  In every world the service can reach from empty tables, each row
    is stored under the identifier it carries: the [id_room] or
    [id_roomtype] a response shows is the key that finds the row. *)
Theorem reachable_key_consistent (w : World) :
  reachable w → key_consistent (db w).
Proof.
  induction 1 as [now|c w _ IH|dt w _ IH].
  - split; apply map_Forall_empty.
  - by apply after_key_consistent.
  - exact IH.
Qed.

End Lifecycle.

(** On [hotel]: an update of the live [room_a] keeps its id and
    [created_at]; a RoomType that is created leaves [deluxe] in place. *)
Lemma no_call_removes_or_renames_a_row_hotel :
  rooms (db hotel) !! "r0" = Some room_a ∧
  (∃ r', rooms (db (after (V:=nonempty_validation)
                      (Update "r0" (RoomUpdateRequest.Make "t1" (Some "booked")))
                      hotel)) !! "r0" = Some r' ∧
         Room.id_room r' = "r0" ∧ Room.created_at r' = 1500) ∧
  roomTypes (db hotel) !! "t0" = Some deluxe ∧
  (∃ t', roomTypes (db (after (V:=nonempty_validation)
                          (CreateRoomType deluxe_request) hotel)) !! "t0" = Some t' ∧
         RoomType.id_roomtype t' = "t0" ∧ RoomType.created_at t' = 1000).
Proof.
  assert (Hr : rooms (db hotel) !! "r0" = Some room_a) by (vm_compute; reflexivity).
  assert (Ht : roomTypes (db hotel) !! "t0" = Some deluxe)
    by (vm_compute; reflexivity).
  split; [exact Hr|]. split.
  - exact (proj1 (no_call_removes_or_renames_a_row (V:=nonempty_validation)
                    (Update "r0" (RoomUpdateRequest.Make "t1" (Some "booked")))
                    hotel) "r0" room_a Hr).
  - split; [exact Ht|].
    exact (proj2 (no_call_removes_or_renames_a_row (V:=nonempty_validation)
                    (CreateRoomType deluxe_request) hotel) "t0" deluxe Ht).
Defined.

(** On [hotel]: neither an update nor a second delete touches the
    soft-deleted [room_c] and [suite]. *)
Lemma soft_deleted_rows_are_frozen_hotel :
  (rooms (db hotel) !! "r2" = Some room_c ∧ Room.deleted room_c = true ∧
   rooms (db (after (V:=nonempty_validation)
                (Update "r2" (RoomUpdateRequest.Make "t0" (Some "open"))) hotel))
     !! "r2" = Some room_c) ∧
  (roomTypes (db hotel) !! "t1" = Some suite ∧ RoomType.deleted suite = true ∧
   roomTypes (db (after (V:=nonempty_validation) (DeleteRoomType "t1") hotel))
     !! "t1" = Some suite).
Proof.
  assert (Hr : rooms (db hotel) !! "r2" = Some room_c) by (vm_compute; reflexivity).
  assert (Ht : roomTypes (db hotel) !! "t1" = Some suite)
    by (vm_compute; reflexivity).
  split.
  - split; [exact Hr|]. split; [reflexivity|].
    exact (proj1 (soft_deleted_rows_are_frozen (V:=nonempty_validation)
                    (Update "r2" (RoomUpdateRequest.Make "t0" (Some "open")))
                    hotel) "r2" room_c Hr eq_refl).
  - split; [exact Ht|]. split; [reflexivity|].
    exact (proj2 (soft_deleted_rows_are_frozen (V:=nonempty_validation)
                    (DeleteRoomType "t1") hotel) "t1" suite Ht eq_refl).
Defined.

(** On [hotel]: [room_a] and [deluxe] go from live to soft-deleted under
    the delete of their id. *)
Lemma only_delete_sets_the_flag_hotel :
  (rooms (db hotel) !! "r0" = Some room_a ∧ Room.deleted room_a = false ∧
   rooms (db (after (V:=nonempty_validation) (Delete "r0") hotel)) !! "r0" =
     Some (Room.Row "r0" "t0" "available" 1500 3000 true) ∧
   Delete "r0" = Delete "r0") ∧
  (roomTypes (db hotel) !! "t0" = Some deluxe ∧ RoomType.deleted deluxe = false ∧
   roomTypes (db (after (V:=nonempty_validation) (DeleteRoomType "t0") hotel))
     !! "t0" = Some (RoomType.Row "t0" "Deluxe" 100 1000 3000 true) ∧
   DeleteRoomType "t0" = DeleteRoomType "t0").
Proof.
  assert (Hr : rooms (db hotel) !! "r0" = Some room_a) by (vm_compute; reflexivity).
  assert (Hr' : rooms (db (after (V:=nonempty_validation) (Delete "r0") hotel))
                  !! "r0" = Some (Room.Row "r0" "t0" "available" 1500 3000 true))
    by (vm_compute; reflexivity).
  assert (Ht : roomTypes (db hotel) !! "t0" = Some deluxe)
    by (vm_compute; reflexivity).
  assert (Ht' : roomTypes (db (after (V:=nonempty_validation)
                                 (DeleteRoomType "t0") hotel)) !! "t0" =
                Some (RoomType.Row "t0" "Deluxe" 100 1000 3000 true))
    by (vm_compute; reflexivity).
  split.
  - split; [exact Hr|]. split; [reflexivity|]. split; [exact Hr'|].
    exact (proj1 (only_delete_sets_the_flag (V:=nonempty_validation)
                    (Delete "r0") hotel) "r0" room_a _ Hr eq_refl Hr' eq_refl).
  - split; [exact Ht|]. split; [reflexivity|]. split; [exact Ht'|].
    exact (proj2 (only_delete_sets_the_flag (V:=nonempty_validation)
                    (DeleteRoomType "t0") hotel) "t0" deluxe _ Ht eq_refl Ht'
             eq_refl).
Defined.

(** The world of the scenario after its two creates is reachable. *)
Lemma reachable_key_consistent_scenario :
  reachable (V:=nonempty_validation)
    (after (V:=nonempty_validation) (Create (RoomCreateRequest.Make "0" "available"))
       after_deluxe) ∧
  key_consistent
    (db (after (V:=nonempty_validation)
           (Create (RoomCreateRequest.Make "0" "available")) after_deluxe)).
Proof.
  assert (Hreach : reachable (V:=nonempty_validation)
            (after (V:=nonempty_validation)
               (Create (RoomCreateRequest.Make "0" "available")) after_deluxe)).
  { apply reachable_call.
    apply (reachable_advance (V:=nonempty_validation) 5
             (after (V:=nonempty_validation) (CreateRoomType deluxe_request)
                empty_world)).
    apply reachable_call. apply reachable_start. }
  split; [exact Hreach|].
  exact (reachable_key_consistent (V:=nonempty_validation) _ Hreach).
Defined.

(** ** How a call ends *)

Ltac method_cases :=
  rewrite ?create_eq, ?update_eq, ?delete_eq, ?findOne_eq, ?findAll_eq,
    ?createRoomType_eq, ?updateRoomType_eq, ?deleteRoomType_eq,
    ?findOneRoomType_eq, ?findAllRoomType_eq;
  cbv zeta;
  repeat match goal with
    | |- context [RoomValidation_CREATE ?r] =>
        destruct (RoomValidation_CREATE r) eqn:?
    | |- context [RoomValidation_UPDATE ?r] =>
        destruct (RoomValidation_UPDATE r) eqn:?
    | |- context [RoomtypeValidation_CREATE ?r] =>
        destruct (RoomtypeValidation_CREATE r) eqn:?
    | |- context [RoomtypeValidation_UPDATE ?r] =>
        destruct (RoomtypeValidation_UPDATE r) eqn:?
    | |- context [roomTypes (db ?w) !! ?k] =>
        destruct (roomTypes (db w) !! k) eqn:?
    | |- context [prisma.room.select ?i ?f ?d] =>
        destruct (prisma.room.select i f d) eqn:?
    | |- context [prisma.roomType.select ?i ?f ?d] =>
        destruct (prisma.roomType.select i f d) eqn:?
    end.


Section Endings.
Context {V : Validation}.

(** X5.  A call that rejects has written nothing, whichever of the ten
    methods it is and whatever it rejects with; and the four read methods
    write nothing whether they resolve or reject. *)
Theorem rejected_calls_and_reads_do_not_write (c : Call) (w : World) :
  (∀ e, rejected c w = Some e → db (after c w) = db w) ∧
  (c = FindAll ∨ c = FindAllRoomType ∨
   (∃ id, c = FindOne id) ∨ (∃ id, c = FindOneRoomType id) →
   db (after c w) = db w).
Proof.
  split.
  - intros e.
    destruct c; unfold rejected, rejection, after; method_cases;
      cbn; done.
  - intros [->|[->|[[id ->]|[id ->]]]]; unfold after; method_cases; done.
Qed.


(** X7.  Every call appends exactly one line to the log, the line of its
    method, before anything else: it is there whether the call resolves
    or rejects, and earlier lines are kept. *)
Theorem every_call_logs_one_line (c : Call) (w : World) :
  log (after c w) = (log w ++ [message_of c])%list.
Proof.
  destruct c; unfold after, message_of; method_cases; done.
Qed.

End Endings.

(** ** Reading one row *)

Lemma findOne_resolves w id r t :
  rooms (db w) !! id = Some r → Room.deleted r = false →
  roomTypes (db w) !! Room.id_roomtype r = Some t →
  (findOne id w).1 = inr (RoomDetailResponse r t).
Proof.
  intros Hr Hd Ht. rewrite findOne_eq.
  rewrite (proj2 (room_select_Some id (db w) r) (conj Hr Hd)).
  unfold detail, prisma.room.include. cbn. by rewrite Ht.
Qed.

Lemma findOne_inv w id v :
  (findOne id w).1 = inr v →
  ∃ r t, rooms (db w) !! id = Some r ∧ Room.deleted r = false ∧
         roomTypes (db w) !! Room.id_roomtype r = Some t ∧
         v = RoomDetailResponse r t.
Proof.
  rewrite findOne_eq.
  destruct (prisma.room.select id (Some false) (db w)) as [r|] eqn:E;
    [|discriminate].
  apply room_select_Some in E as [Hr Hd].
  unfold detail, prisma.room.include. cbn.
  destruct (roomTypes (db w) !! Room.id_roomtype r) as [t|] eqn:Ht;
    [|discriminate].
  intros [= <-]. by exists r, t.
Qed.

Lemma findOneRoomType_resolves w id t :
  roomTypes (db w) !! id = Some t → RoomType.deleted t = false →
  (findOneRoomType id w).1 = inr (RoomTypeResponse t).
Proof.
  intros Ht Hd. rewrite findOneRoomType_eq.
  by rewrite (proj2 (roomType_select_Some id (db w) t) (conj Ht Hd)).
Qed.

Lemma findOneRoomType_inv w id v :
  (findOneRoomType id w).1 = inr v →
  ∃ t, roomTypes (db w) !! id = Some t ∧ RoomType.deleted t = false ∧
       v = RoomTypeResponse t.
Proof.
  rewrite findOneRoomType_eq.
  destruct (prisma.roomType.select id (Some false) (db w)) as [t|] eqn:E;
    [|discriminate].
  apply roomType_select_Some in E as [Ht Hd].
  intros [= <-]. by exists t.
Qed.

(** ** Writes and the reads that follow them *)

Section Writers.
Context {V : Validation}.

(** X8.  [create] and [createRoomType] only add: every row stored before
    the call is stored unchanged after it and the other table is not
    touched; a call that resolves has made its table exactly one row
    larger, a call that rejects has left its size as it was. *)
Theorem creates_only_add (w : World) :
  (∀ request,
     (∀ id r, rooms (db w) !! id = Some r →
              rooms (db (create request w).2) !! id = Some r) ∧
     roomTypes (db (create request w).2) = roomTypes (db w) ∧
     size (rooms (db (create request w).2)) =
       (if (create request w).1 is inr _
        then S (size (rooms (db w))) else size (rooms (db w)))) ∧
  (∀ request,
     (∀ id t, roomTypes (db w) !! id = Some t →
              roomTypes (db (createRoomType request w).2) !! id = Some t) ∧
     rooms (db (createRoomType request w).2) = rooms (db w) ∧
     size (roomTypes (db (createRoomType request w).2)) =
       (if (createRoomType request w).1 is inr _
        then S (size (roomTypes (db w))) else size (roomTypes (db w)))).
Proof.
  split; intros request.
  - rewrite create_eq. cbv zeta.
    destruct (RoomValidation_CREATE request) as [e|vr]; [done|].
    destruct (roomTypes (db w) !! RoomCreateRequest.id_roomtype vr) as [t|];
      [|done].
    cbn. split; [|split; [done|]].
    + intros id r Hr. rewrite lookup_insert_ne; [done|]. intros <-.
      by rewrite fresh_room_id in Hr.
    + apply map_size_insert_None, fresh_room_id.
  - rewrite createRoomType_eq. cbv zeta.
    destruct (RoomtypeValidation_CREATE request) as [e|vr]; [done|].
    cbn. split; [|split; [done|]].
    + intros id t Ht. rewrite lookup_insert_ne; [done|]. intros <-.
      by rewrite fresh_roomType_id in Ht.
    + apply map_size_insert_None, fresh_roomType_id.
Qed.

(** X9.  An [update] of a live Room with a body the validator accepts and
    a RoomType that is stored resolves with the flat view of the row it
    wrote.  That row keeps [id_room], [created_at] and the flag, takes
    [id_roomtype] from the body, takes [status] from the body when the
    body has one and keeps it otherwise, and has the server clock as
    [updated_at]; no other Room and no RoomType is written. *)
Theorem update_replaces_the_given_fields
    (w : World) (id : string) (request vr : RoomUpdateRequest.t)
    (t : RoomType.row) (r : Room.row) :
  RoomValidation_UPDATE request = inr vr →
  roomTypes (db w) !! RoomUpdateRequest.id_roomtype vr = Some t →
  rooms (db w) !! id = Some r →
  Room.deleted r = false →
  ∃ r',
    (update id request w).1 = inr (RoomCreateResponse r') ∧
    rooms (db (update id request w).2) !! id = Some r' ∧
    Room.id_room r' = Room.id_room r ∧
    Room.id_roomtype r' = RoomUpdateRequest.id_roomtype vr ∧
    Room.status r' =
      (if RoomUpdateRequest.status vr is Some s then s else Room.status r) ∧
    Room.created_at r' = Room.created_at r ∧
    Room.updated_at r' = clock (db w) ∧
    Room.deleted r' = false ∧
    (∀ id', id' ≠ id →
       rooms (db (update id request w).2) !! id' = rooms (db w) !! id') ∧
    roomTypes (db (update id request w).2) = roomTypes (db w).
Proof.
  intros Hv Ht Hr Hd. rewrite update_eq. cbv zeta. rewrite Hv, Ht.
  rewrite (proj2 (room_select_Some id (db w) r) (conj Hr Hd)).
  eexists. split; [reflexivity|]. cbn. rewrite lookup_insert_eq.
  split; [done|]. split; [done|]. split; [done|].
  split; [by destruct (RoomUpdateRequest.status vr)|].
  do 3 (split; [done|]). split; [|done].
  intros id' Hne. by rewrite lookup_insert_ne.
Qed.

(** X10.  An [updateRoomType] of a live RoomType with a body the validator
    accepts resolves with the view of the row it wrote.  That row keeps
    [id_roomtype], [created_at] and the flag, takes [room_type] and
    [price] from the body where the body has them and keeps them
    otherwise, and has the server clock as [updated_at]; no other
    RoomType and no Room is written. *)
Theorem updateRoomType_replaces_the_given_fields
    (w : World) (id : string) (request vr : RoomTypeUpdateRequest.t)
    (t : RoomType.row) :
  RoomtypeValidation_UPDATE request = inr vr →
  roomTypes (db w) !! id = Some t →
  RoomType.deleted t = false →
  ∃ t',
    (updateRoomType id request w).1 = inr (RoomTypeResponse t') ∧
    roomTypes (db (updateRoomType id request w).2) !! id = Some t' ∧
    RoomType.id_roomtype t' = RoomType.id_roomtype t ∧
    RoomType.room_type t' =
      (if RoomTypeUpdateRequest.room_type vr is Some n
       then n else RoomType.room_type t) ∧
    RoomType.price t' =
      (if RoomTypeUpdateRequest.price vr is Some p then p else RoomType.price t) ∧
    RoomType.created_at t' = RoomType.created_at t ∧
    RoomType.updated_at t' = clock (db w) ∧
    RoomType.deleted t' = false ∧
    (∀ id', id' ≠ id →
       roomTypes (db (updateRoomType id request w).2) !! id' =
         roomTypes (db w) !! id') ∧
    rooms (db (updateRoomType id request w).2) = rooms (db w).
Proof.
  intros Hv Ht Hd. rewrite updateRoomType_eq. cbv zeta. rewrite Hv.
  rewrite (proj2 (roomType_select_Some id (db w) t) (conj Ht Hd)).
  eexists. split; [reflexivity|]. cbn. rewrite lookup_insert_eq.
  split; [done|]. split; [done|].
  split; [by destruct (RoomTypeUpdateRequest.room_type vr)|].
  split; [by destruct (RoomTypeUpdateRequest.price vr)|].
  do 3 (split; [done|]). split; [|done].
  intros id' Hne. by rewrite lookup_insert_ne.
Qed.

End Writers.

(** ** What the lists hold *)

Lemma Forall2_elem_l {A B} (P : A → B → Prop) (l : list A) (k : list B) (x : A) :
  Forall2 P l k → x ∈ l → ∃ y, y ∈ k ∧ P x y.
Proof.
  intros HF [i Hi]%list_elem_of_lookup.
  destruct (Forall2_lookup_l _ _ _ _ _ HF Hi) as (y & Hy & HP).
  exists y. split; [by eapply list_elem_of_lookup_2 | done].
Qed.

Lemma Forall2_elem_r {A B} (P : A → B → Prop) (l : list A) (k : list B) (y : B) :
  Forall2 P l k → y ∈ k → ∃ x, x ∈ l ∧ P x y.
Proof.
  intros HF [i Hi]%list_elem_of_lookup.
  destruct (Forall2_lookup_r _ _ _ _ _ HF Hi) as (x & Hx & HP).
  exists x. split; [by eapply list_elem_of_lookup_2 | done].
Qed.

Lemma findAll_elems w responses v :
  (findAll w).1 = inr responses →
  v ∈ responses ↔
  ∃ id r t, rooms (db w) !! id = Some r ∧ Room.deleted r = false ∧
            roomTypes (db w) !! Room.id_roomtype r = Some t ∧
            v = RoomDetailResponse r t.
Proof.
  rewrite findAll_eq, filter_snd. cbn. intros HF%map_throw_detail_inv.
  apply Forall2_fmap_l in HF. fold (live_rooms (db w)) in HF. split.
  - intros Hin. destruct (Forall2_elem_r _ _ _ _ HF Hin)
      as ([id r] & [Hr Hd]%live_rooms_spec & t & Ht & ->).
    by exists id, r, t.
  - intros (id & r & t & Hr & Hd & Ht & ->).
    destruct (Forall2_elem_l _ _ _ (id, r) HF) as (y & Hy & t' & Ht' & ->).
    { by apply live_rooms_spec. }
    cbn in Ht'. by replace t with t' by congruence.
Qed.

Lemma findAllRoomType_elems w v :
  ∃ responses,
    (findAllRoomType w).1 = inr responses ∧
    (v ∈ responses ↔
     ∃ id t, roomTypes (db w) !! id = Some t ∧ RoomType.deleted t = false ∧
             v = RoomTypeResponse t).
Proof.
  rewrite findAllRoomType_eq, filter_snd. cbn. eexists. split; [done|].
  fold (live_roomTypes (db w)). rewrite <- list_fmap_compose, list_elem_of_fmap.
  split.
  - intros ([id t] & -> & [Ht Hd]%live_roomTypes_spec). by exists id, t.
  - intros (id & t & Ht & Hd & ->). exists (id, t).
    split; [done | by apply live_roomTypes_spec].
Qed.

Section ReadBack.
Context {V : Validation}.

(** X11.  What a create resolves with can be read back at once: [findOne]
    on the new Room's id resolves with the same Room columns and the
    view of the RoomType the body named, and [findOneRoomType] on the new
    RoomType's id resolves with the very object [createRoomType]
    returned. *)
Theorem created_rows_can_be_read_back (w : World) :
  (∀ request v,
     (create request w).1 = inr v →
     ∃ room t,
       v = RoomCreateResponse room ∧
       roomTypes (db w) !! Room.id_roomtype room = Some t ∧
       (findOne (Room.id_room room) (create request w).2).1 =
         inr (RoomDetailResponse room t)) ∧
  (∀ request v,
     (createRoomType request w).1 = inr v →
     ∃ id,
       get "id_roomtype" v = Some (VString id) ∧
       (findOneRoomType id (createRoomType request w).2).1 = inr v).
Proof.
  split; intros request v.
  - rewrite create_eq. cbv zeta.
    destruct (RoomValidation_CREATE request) as [e|vr]; [discriminate|].
    destruct (roomTypes (db w) !! RoomCreateRequest.id_roomtype vr) as [t|] eqn:Ht;
      [|discriminate].
    intros [= <-]. eexists _, t. split; [reflexivity|]. split; [exact Ht|].
    apply findOne_resolves; cbn; [apply lookup_insert_eq | done | exact Ht].
  - rewrite createRoomType_eq. cbv zeta.
    destruct (RoomtypeValidation_CREATE request) as [e|vr]; [discriminate|].
    intros [= <-]. eexists. split; [reflexivity|].
    apply findOneRoomType_resolves; cbn; [apply lookup_insert_eq | done].
Qed.

(** X12.  What an update resolves with can be read back at once:
    [findOne] on the id resolves with the same Room columns and the view
    of the RoomType now named, and [findOneRoomType] on the id resolves
    with the very object [updateRoomType] returned. *)
Theorem updated_rows_can_be_read_back (w : World) (id : string) :
  (∀ request v,
     (update id request w).1 = inr v →
     ∃ room t,
       v = RoomCreateResponse room ∧
       roomTypes (db w) !! Room.id_roomtype room = Some t ∧
       (findOne id (update id request w).2).1 = inr (RoomDetailResponse room t)) ∧
  (∀ request v,
     (updateRoomType id request w).1 = inr v →
     (findOneRoomType id (updateRoomType id request w).2).1 = inr v).
Proof.
  split; intros request v.
  - rewrite update_eq. cbv zeta.
    destruct (RoomValidation_UPDATE request) as [e|vr]; [discriminate|].
    destruct (roomTypes (db w) !! RoomUpdateRequest.id_roomtype vr) as [t|] eqn:Ht;
      [|discriminate].
    destruct (prisma.room.select id (Some false) (db w)) as [r|] eqn:E;
      [|discriminate].
    apply room_select_Some in E as [Hr Hd].
    intros [= <-]. eexists _, t. split; [reflexivity|]. split; [exact Ht|].
    apply findOne_resolves; cbn; [apply lookup_insert_eq | done | exact Ht].
  - rewrite updateRoomType_eq. cbv zeta.
    destruct (RoomtypeValidation_UPDATE request) as [e|vr]; [discriminate|].
    destruct (prisma.roomType.select id (Some false) (db w)) as [t|] eqn:E;
      [|discriminate].
    apply roomType_select_Some in E as [Ht Hd].
    intros [= <-].
    apply findOneRoomType_resolves; cbn; [apply lookup_insert_eq | done].
Qed.

(** X13.  The join of the Room reads is taken at read time: once
    [updateRoomType] has resolved, [findOne] on every live Room that
    names the RoomType shows the row as updated (its new [price] and
    [updated_at]), not the row as it was when the Room was written. *)
Theorem roomtype_update_shows_in_room_reads
    (w : World) (tid : string) (request : RoomTypeUpdateRequest.t) (v : value)
    (rid : string) (room : Room.row) :
  (updateRoomType tid request w).1 = inr v →
  rooms (db w) !! rid = Some room →
  Room.deleted room = false →
  Room.id_roomtype room = tid →
  ∃ t',
    v = RoomTypeResponse t' ∧
    roomTypes (db (updateRoomType tid request w).2) !! tid = Some t' ∧
    (findOne rid (updateRoomType tid request w).2).1 =
      inr (RoomDetailResponse room t').
Proof.
  rewrite updateRoomType_eq. cbv zeta.
  destruct (RoomtypeValidation_UPDATE request) as [e|vr]; [discriminate|].
  destruct (prisma.roomType.select tid (Some false) (db w)) as [t|] eqn:E;
    [|discriminate].
  intros [= <-] Hr Hd Href. eexists. split; [reflexivity|].
  split; [cbn; apply lookup_insert_eq|].
  apply findOne_resolves; cbn; [done | done |]. rewrite Href.
  apply lookup_insert_eq.
Qed.

End ReadBack.

(** X14.  The single reads and the lists agree.  Whatever [findOne]
    resolves with is an element of every list [findAll] resolves with in
    the same world, and every element of such a list is what [findOne]
    resolves with on some id; likewise for [findOneRoomType] and
    [findAllRoomType]. *)
Theorem single_reads_and_lists_agree (w : World) (v : value) :
  ((∃ id, (findOne id w).1 = inr v) →
   ∀ responses, (findAll w).1 = inr responses → v ∈ responses) ∧
  (∀ responses,
     (findAll w).1 = inr responses → v ∈ responses →
     ∃ id, (findOne id w).1 = inr v) ∧
  ((∃ id, (findOneRoomType id w).1 = inr v) ↔
   (∃ responses, (findAllRoomType w).1 = inr responses ∧ v ∈ responses)).
Proof.
  split; [|split].
  - intros [id (r & t & Hr & Hd & Ht & ->)%findOne_inv] responses Hall.
    apply (findAll_elems _ _ _ Hall). by exists id, r, t.
  - intros responses Hall Hin.
    apply (findAll_elems _ _ _ Hall) in Hin as (id & r & t & Hr & Hd & Ht & ->).
    exists id. by apply findOne_resolves.
  - destruct (findAllRoomType_elems w v) as (responses & Hall & Hiff). split.
    + intros [id (t & Ht & Hd & ->)%findOneRoomType_inv].
      exists responses. split; [done|]. apply Hiff. by exists id, t.
    + intros (responses' & Hall' & Hin).
      replace responses' with responses in Hin by congruence.
      apply Hiff in Hin as (id & t & Ht & Hd & ->).
      exists id. by apply findOneRoomType_resolves.
Qed.

Lemma delete_key_consistent id w :
  key_consistent (db w) →
  key_consistent (db (delete id w).2) ∧
  key_consistent (db (deleteRoomType id w).2).
Proof.
  intros Hkc. split.
  - exact (after_key_consistent (V:=nonempty_validation) (Delete id) w Hkc).
  - exact (after_key_consistent (V:=nonempty_validation) (DeleteRoomType id) w Hkc).
Qed.

(** X15.  A deleted row is gone from the lists.  Where rows are stored
    under their own ids, after a call of [delete] on an id, resolved or
    rejected, no element of a list [findAll] resolves with carries that
    [id_room]; and after a call of [deleteRoomType] on an id no element
    of the list [findAllRoomType] resolves with carries that
    [id_roomtype]. *)
Theorem deleted_rows_leave_the_lists (w : World) (id : string) :
  key_consistent (db w) →
  (∀ responses v,
     (findAll (delete id w).2).1 = inr responses → v ∈ responses →
     get "id_room" v ≠ Some (VString id)) ∧
  (∀ responses v,
     (findAllRoomType (deleteRoomType id w).2).1 = inr responses → v ∈ responses →
     get "id_roomtype" v ≠ Some (VString id)).
Proof.
  intros [[Hk _] [_ Hk']]%(delete_key_consistent id).
  split; intros responses v Hall Hin.
  - apply (findAll_elems _ _ _ Hall) in Hin as (id' & r & t & Hr & Hd & _ & ->).
    cbn. intros [= Hid]. pose proof (Hk _ _ Hr) as Hkey. cbn in Hkey.
    rewrite Hid in Hkey. subst id'.
    pose proof (room_gone_after_delete id w r Hr). congruence.
  - destruct (findAllRoomType_elems (deleteRoomType id w).2 v)
      as (responses' & Hall' & Hiff).
    replace responses' with responses in Hiff by congruence.
    apply Hiff in Hin as (id' & t & Ht & Hd & ->).
    cbn. intros [= Hid]. pose proof (Hk' _ _ Ht) as Hkey. cbn in Hkey.
    rewrite Hid in Hkey. subst id'.
    pose proof (roomType_gone_after_delete id w t Ht). congruence.
Qed.

(** X16.  The lookup-guarded reads and the Room delete resolve exactly
    when a live row has the id: [delete] and [findOneRoomType] need
    nothing more, [findOne] needs in addition that the RoomType row the
    Room names is stored; [delete] then resolves with the fixed
    acknowledgement, which carries nothing of the row. *)
Theorem single_row_methods_resolve_iff (w : World) (id : string) :
  ((∃ v, (findOne id w).1 = inr v) ↔
   ∃ r, rooms (db w) !! id = Some r ∧ Room.deleted r = false ∧
        is_Some (roomTypes (db w) !! Room.id_roomtype r)) ∧
  ((∃ v, (delete id w).1 = inr v) ↔
   ∃ r, rooms (db w) !! id = Some r ∧ Room.deleted r = false) ∧
  (∀ v, (delete id w).1 = inr v → v = DeleteResponse) ∧
  ((∃ v, (findOneRoomType id w).1 = inr v) ↔
   ∃ t, roomTypes (db w) !! id = Some t ∧ RoomType.deleted t = false).
Proof.
  split; [|split; [|split]].
  - split.
    + intros [v (r & t & Hr & Hd & Ht & _)%findOne_inv]. exists r.
      by rewrite Ht.
    + intros (r & Hr & Hd & [t Ht]). eexists. by apply (findOne_resolves _ _ r t).
  - rewrite delete_eq.
    destruct (prisma.room.select id (Some false) (db w)) as [r|] eqn:E.
    + apply room_select_Some in E. split; [by exists r | by eexists].
    + apply room_select_None in E. split; [by intros [v ?]|].
      intros (r & Hr & Hd). specialize (E r Hr). congruence.
  - intros v. rewrite delete_eq.
    destruct (prisma.room.select id (Some false) (db w)); [|discriminate].
    by intros [= <-].
  - split.
    + intros [v (t & Ht & Hd & _)%findOneRoomType_inv]. by exists t.
    + intros (t & Ht & Hd). eexists. by apply findOneRoomType_resolves.
Qed.

Section Preconditions.
Context {V : Validation}.

(** X17.  What each write needs in order to resolve, no more and no
    less: [createRoomType] an accepted body; [create] an accepted body
    that names a stored RoomType; [updateRoomType] an accepted body and a
    live RoomType on the id; [update] an accepted body that names a
    stored RoomType and a live Room on the id. *)
Theorem writes_resolve_iff (w : World) :
  (∀ request,
     (∃ v, (createRoomType request w).1 = inr v) ↔
     ∃ vr, RoomtypeValidation_CREATE request = inr vr) ∧
  (∀ request,
     (∃ v, (create request w).1 = inr v) ↔
     ∃ vr, RoomValidation_CREATE request = inr vr ∧
           is_Some (roomTypes (db w) !! RoomCreateRequest.id_roomtype vr)) ∧
  (∀ id request,
     (∃ v, (updateRoomType id request w).1 = inr v) ↔
     (∃ vr, RoomtypeValidation_UPDATE request = inr vr) ∧
     ∃ t, roomTypes (db w) !! id = Some t ∧ RoomType.deleted t = false) ∧
  (∀ id request,
     (∃ v, (update id request w).1 = inr v) ↔
     (∃ vr, RoomValidation_UPDATE request = inr vr ∧
            is_Some (roomTypes (db w) !! RoomUpdateRequest.id_roomtype vr)) ∧
     ∃ r, rooms (db w) !! id = Some r ∧ Room.deleted r = false).
Proof.
  repeat apply conj.
  - intros request. rewrite createRoomType_eq. cbv zeta.
    destruct (RoomtypeValidation_CREATE request) as [e|vr].
    + split; [by intros [v ?] | by intros [vr ?]].
    + split; [by exists vr | by eexists].
  - intros request. rewrite create_eq. cbv zeta.
    destruct (RoomValidation_CREATE request) as [e|vr].
    + split; [by intros [v ?] | by intros (vr & ? & _)].
    + destruct (roomTypes (db w) !! RoomCreateRequest.id_roomtype vr) as [t|] eqn:Ht.
      * split; [|by eexists]. intros _. exists vr. by rewrite Ht.
      * split; [by intros [v ?]|]. intros (vr' & [= <-] & [t Ht']). congruence.
  - intros id request. rewrite updateRoomType_eq. cbv zeta.
    destruct (RoomtypeValidation_UPDATE request) as [e|vr].
    + split; [by intros [v ?] | by intros [[vr ?] _]].
    + destruct (prisma.roomType.select id (Some false) (db w)) as [t|] eqn:E.
      * apply roomType_select_Some in E.
        split; [|by eexists]. intros _. split; [by exists vr | by exists t].
      * apply roomType_select_None in E. split; [by intros [v ?]|].
        intros (_ & t & Ht & Hd). specialize (E t Ht). congruence.
  - intros id request. rewrite update_eq. cbv zeta.
    destruct (RoomValidation_UPDATE request) as [e|vr].
    + split; [by intros [v ?] | by intros [(vr & ? & _) _]].
    + destruct (roomTypes (db w) !! RoomUpdateRequest.id_roomtype vr) as [t|] eqn:Ht.
      * destruct (prisma.room.select id (Some false) (db w)) as [r|] eqn:E.
        -- apply room_select_Some in E. split; [|by eexists]. intros _.
           split; [exists vr; by rewrite Ht | by exists r].
        -- apply room_select_None in E. split; [by intros [v ?]|].
           intros (_ & r & Hr & Hd). specialize (E r Hr). congruence.
      * split; [by intros [v ?]|].
        intros ((vr' & [= <-] & [t Ht']) & _). congruence.
Qed.

(** X18.  In every world the service can reach from empty tables the Room
    reads cannot hit a missing RoomType: [findAll] resolves, and
    [findOne] resolves on the id of every live Room. *)
Theorem reachable_room_reads_resolve (w : World) :
  reachable w →
  (∃ responses, (findAll w).1 = inr responses) ∧
  (∀ id r,
     rooms (db w) !! id = Some r → Room.deleted r = false →
     ∃ t, (findOne id w).1 = inr (RoomDetailResponse r t)).
Proof.
  intros Hri%reachable_referential_integrity. split.
  - rewrite findAll_eq, filter_snd. cbn.
    apply map_throw_detail_total, Forall_fmap, Forall_forall.
    intros [id r] [Hr _]%elem_of_filter_bool. cbn.
    apply elem_of_map_to_list in Hr. by apply (Hri id).
  - intros id r Hr Hd. destruct (Hri id r Hr) as [t Ht].
    exists t. by apply findOne_resolves.
Qed.

End Preconditions.

(** ** The properties of whole calls on the sample database *)

Lemma rejected_calls_and_reads_do_not_write_hotel :
  rejected (V:=nonempty_validation)
    (Update "r2" (RoomUpdateRequest.Make "t0" None)) hotel =
    Some (HttpException "Room not found" 404) ∧
  db (after (V:=nonempty_validation)
        (Update "r2" (RoomUpdateRequest.Make "t0" None)) hotel) = db hotel ∧
  db (after (V:=nonempty_validation) (FindOne "r0") hotel) = db hotel.
Proof.
  assert (Hrej : rejected (V:=nonempty_validation)
                   (Update "r2" (RoomUpdateRequest.Make "t0" None)) hotel =
                 Some (HttpException "Room not found" 404))
    by (vm_compute; reflexivity).
  split; [exact Hrej|]. split.
  - exact (proj1 (rejected_calls_and_reads_do_not_write (V:=nonempty_validation)
                    (Update "r2" (RoomUpdateRequest.Make "t0" None)) hotel)
             _ Hrej).
  - apply (proj2 (rejected_calls_and_reads_do_not_write (V:=nonempty_validation)
                    (FindOne "r0") hotel)).
    right. right. left. by exists "r0".
Defined.


Lemma creates_only_add_hotel :
  rooms (db hotel) !! "r0" = Some room_a ∧
  rooms (db (create (V:=nonempty_validation)
               (RoomCreateRequest.Make "t0" "available") hotel).2) !! "r0" =
    Some room_a ∧
  roomTypes (db hotel) !! "t1" = Some suite ∧
  roomTypes (db (createRoomType (V:=nonempty_validation) deluxe_request hotel).2)
    !! "t1" = Some suite.
Proof.
  assert (Hr : rooms (db hotel) !! "r0" = Some room_a) by (vm_compute; reflexivity).
  assert (Ht : roomTypes (db hotel) !! "t1" = Some suite)
    by (vm_compute; reflexivity).
  destruct (creates_only_add (V:=nonempty_validation) hotel) as [Hc Hct].
  split; [exact Hr|]. split.
  - exact (proj1 (Hc (RoomCreateRequest.Make "t0" "available")) "r0" room_a Hr).
  - split; [exact Ht|]. exact (proj1 (Hct deluxe_request) "t1" suite Ht).
Defined.

Lemma update_replaces_the_given_fields_hotel :
  (RoomValidation_UPDATE (Validation:=nonempty_validation)
     (RoomUpdateRequest.Make "t1" (Some "booked")) =
     inr (RoomUpdateRequest.Make "t1" (Some "booked")) ∧
   roomTypes (db hotel) !! "t1" = Some suite ∧
   rooms (db hotel) !! "r0" = Some room_a ∧
   Room.deleted room_a = false) ∧
  ∃ r',
    (update (V:=nonempty_validation) "r0"
       (RoomUpdateRequest.Make "t1" (Some "booked")) hotel).1 =
      inr (RoomCreateResponse r') ∧
    Room.id_roomtype r' = "t1" ∧
    Room.status r' = "booked" ∧
    Room.created_at r' = 1500 ∧
    Room.updated_at r' = 3000.
Proof.
  assert (Hv : RoomValidation_UPDATE (Validation:=nonempty_validation)
                 (RoomUpdateRequest.Make "t1" (Some "booked")) =
               inr (RoomUpdateRequest.Make "t1" (Some "booked")))
    by (vm_compute; reflexivity).
  assert (Ht : roomTypes (db hotel) !! "t1" = Some suite)
    by (vm_compute; reflexivity).
  assert (Hr : rooms (db hotel) !! "r0" = Some room_a) by (vm_compute; reflexivity).
  split; [by repeat split|].
  destruct (update_replaces_the_given_fields (V:=nonempty_validation) hotel "r0"
              _ _ suite room_a Hv Ht Hr eq_refl)
    as (r' & Hres & _ & _ & Hrt & Hs & Hc & Hu & _).
  exists r'. by repeat split.
Defined.

Lemma updateRoomType_replaces_the_given_fields_hotel :
  (RoomtypeValidation_UPDATE (Validation:=nonempty_validation)
     (RoomTypeUpdateRequest.Make None (Some 120)) =
     inr (RoomTypeUpdateRequest.Make None (Some 120)) ∧
   roomTypes (db hotel) !! "t0" = Some deluxe ∧
   RoomType.deleted deluxe = false) ∧
  ∃ t',
    (updateRoomType (V:=nonempty_validation) "t0"
       (RoomTypeUpdateRequest.Make None (Some 120)) hotel).1 =
      inr (RoomTypeResponse t') ∧
    RoomType.room_type t' = "Deluxe" ∧
    RoomType.price t' = 120 ∧
    RoomType.updated_at t' = 3000 ∧
    rooms (db (updateRoomType (V:=nonempty_validation) "t0"
                 (RoomTypeUpdateRequest.Make None (Some 120)) hotel).2) =
      rooms (db hotel).
Proof.
  assert (Hv : RoomtypeValidation_UPDATE (Validation:=nonempty_validation)
                 (RoomTypeUpdateRequest.Make None (Some 120)) =
               inr (RoomTypeUpdateRequest.Make None (Some 120)))
    by (vm_compute; reflexivity).
  assert (Ht : roomTypes (db hotel) !! "t0" = Some deluxe)
    by (vm_compute; reflexivity).
  split; [by repeat split|].
  destruct (updateRoomType_replaces_the_given_fields (V:=nonempty_validation)
              hotel "t0" _ _ deluxe Hv Ht eq_refl)
    as (t' & Hres & _ & _ & Hn & Hp & _ & Hu & _ & _ & Hrooms).
  exists t'. by repeat split.
Defined.

Lemma created_rows_can_be_read_back_hotel :
  ((create (V:=nonempty_validation) (RoomCreateRequest.Make "t0" "available")
      hotel).1 = inr (RoomCreateResponse (Room.Row "0" "t0" "available" 3000 3000 false)) ∧
   ∃ room t,
     RoomCreateResponse (Room.Row "0" "t0" "available" 3000 3000 false) =
       RoomCreateResponse room ∧
     (findOne (Room.id_room room)
        (create (V:=nonempty_validation) (RoomCreateRequest.Make "t0" "available")
           hotel).2).1 = inr (RoomDetailResponse room t)) ∧
  ((createRoomType (V:=nonempty_validation) deluxe_request hotel).1 =
     inr (RoomTypeResponse (RoomType.Row "0" "Deluxe" 100 3000 3000 false)) ∧
   ∃ id,
     (findOneRoomType id
        (createRoomType (V:=nonempty_validation) deluxe_request hotel).2).1 =
       inr (RoomTypeResponse (RoomType.Row "0" "Deluxe" 100 3000 3000 false))).
Proof.
  assert (Hc : (create (V:=nonempty_validation)
                  (RoomCreateRequest.Make "t0" "available") hotel).1 =
               inr (RoomCreateResponse
                      (Room.Row "0" "t0" "available" 3000 3000 false)))
    by (vm_compute; reflexivity).
  assert (Ht : (createRoomType (V:=nonempty_validation) deluxe_request hotel).1 =
               inr (RoomTypeResponse
                      (RoomType.Row "0" "Deluxe" 100 3000 3000 false)))
    by (vm_compute; reflexivity).
  destruct (created_rows_can_be_read_back (V:=nonempty_validation) hotel)
    as [Hroom Htype].
  split.
  - split; [exact Hc|].
    destruct (Hroom _ _ Hc) as (room & t & Heq & _ & Hread).
    by exists room, t.
  - split; [exact Ht|].
    destruct (Htype _ _ Ht) as (id & _ & Hread). by exists id.
Defined.

Lemma updated_rows_can_be_read_back_hotel :
  (updateRoomType (V:=nonempty_validation) "t0"
     (RoomTypeUpdateRequest.Make None (Some 120)) hotel).1 =
    inr (RoomTypeResponse (RoomType.Row "t0" "Deluxe" 120 1000 3000 false)) ∧
  (findOneRoomType "t0"
     (updateRoomType (V:=nonempty_validation) "t0"
        (RoomTypeUpdateRequest.Make None (Some 120)) hotel).2).1 =
    inr (RoomTypeResponse (RoomType.Row "t0" "Deluxe" 120 1000 3000 false)) ∧
  (update (V:=nonempty_validation) "r0"
     (RoomUpdateRequest.Make "t1" (Some "booked")) hotel).1 =
    inr (RoomCreateResponse (Room.Row "r0" "t1" "booked" 1500 3000 false)) ∧
  ∃ room t,
    RoomCreateResponse (Room.Row "r0" "t1" "booked" 1500 3000 false) =
      RoomCreateResponse room ∧
    (findOne "r0"
       (update (V:=nonempty_validation) "r0"
          (RoomUpdateRequest.Make "t1" (Some "booked")) hotel).2).1 =
      inr (RoomDetailResponse room t).
Proof.
  assert (Ht : (updateRoomType (V:=nonempty_validation) "t0"
                  (RoomTypeUpdateRequest.Make None (Some 120)) hotel).1 =
               inr (RoomTypeResponse
                      (RoomType.Row "t0" "Deluxe" 120 1000 3000 false)))
    by (vm_compute; reflexivity).
  assert (Hr : (update (V:=nonempty_validation) "r0"
                  (RoomUpdateRequest.Make "t1" (Some "booked")) hotel).1 =
               inr (RoomCreateResponse
                      (Room.Row "r0" "t1" "booked" 1500 3000 false)))
    by (vm_compute; reflexivity).
  destruct (updated_rows_can_be_read_back (V:=nonempty_validation) hotel "r0")
    as [Hroom _].
  destruct (updated_rows_can_be_read_back (V:=nonempty_validation) hotel "t0")
    as [_ Htype].
  split; [exact Ht|]. split; [exact (Htype _ _ Ht)|]. split; [exact Hr|].
  destruct (Hroom _ _ Hr) as (room & t & Heq & _ & Hread). by exists room, t.
Defined.

Lemma roomtype_update_shows_in_room_reads_hotel :
  ((updateRoomType (V:=nonempty_validation) "t0"
      (RoomTypeUpdateRequest.Make None (Some 120)) hotel).1 =
     inr (RoomTypeResponse (RoomType.Row "t0" "Deluxe" 120 1000 3000 false)) ∧
   rooms (db hotel) !! "r0" = Some room_a ∧
   Room.deleted room_a = false ∧
   Room.id_roomtype room_a = "t0") ∧
  ∃ t',
    RoomType.price t' = 120 ∧
    (findOne "r0"
       (updateRoomType (V:=nonempty_validation) "t0"
          (RoomTypeUpdateRequest.Make None (Some 120)) hotel).2).1 =
      inr (RoomDetailResponse room_a t').
Proof.
  assert (Ht : (updateRoomType (V:=nonempty_validation) "t0"
                  (RoomTypeUpdateRequest.Make None (Some 120)) hotel).1 =
               inr (RoomTypeResponse
                      (RoomType.Row "t0" "Deluxe" 120 1000 3000 false)))
    by (vm_compute; reflexivity).
  assert (Hr : rooms (db hotel) !! "r0" = Some room_a) by (vm_compute; reflexivity).
  split; [by repeat split|].
  destruct (roomtype_update_shows_in_room_reads (V:=nonempty_validation) hotel "t0"
              _ _ "r0" room_a Ht Hr eq_refl eq_refl)
    as (t' & Heq & _ & Hread).
  exists t'. split; [|exact Hread]. by injection Heq as _ _ <- _ _.
Defined.

Lemma single_reads_and_lists_agree_hotel :
  (findOne "r0" hotel).1 = inr (RoomDetailResponse room_a deluxe) ∧
  (∀ responses,
     (findAll hotel).1 = inr responses →
     RoomDetailResponse room_a deluxe ∈ responses) ∧
  (findOneRoomType "t0" hotel).1 = inr (RoomTypeResponse deluxe) ∧
  (∃ responses,
     (findAllRoomType hotel).1 = inr responses ∧
     RoomTypeResponse deluxe ∈ responses).
Proof.
  assert (Hr : (findOne "r0" hotel).1 = inr (RoomDetailResponse room_a deluxe))
    by (vm_compute; reflexivity).
  assert (Ht : (findOneRoomType "t0" hotel).1 = inr (RoomTypeResponse deluxe))
    by (vm_compute; reflexivity).
  split; [exact Hr|]. split.
  - apply (proj1 (single_reads_and_lists_agree hotel
                    (RoomDetailResponse room_a deluxe))).
    by exists "r0".
  - split; [exact Ht|].
    apply (proj1 (proj2 (proj2 (single_reads_and_lists_agree hotel
                                  (RoomTypeResponse deluxe))))).
    by exists "t0".
Defined.

Lemma deleted_rows_leave_the_lists_hotel :
  key_consistent (db hotel) ∧
  (∀ responses v,
     (findAll (delete "r0" hotel).2).1 = inr responses → v ∈ responses →
     get "id_room" v ≠ Some (VString "r0")) ∧
  (∀ responses v,
     (findAllRoomType (deleteRoomType "t0" hotel).2).1 = inr responses →
     v ∈ responses →
     get "id_roomtype" v ≠ Some (VString "t0")).
Proof.
  assert (Hkc : key_consistent (db hotel))
    by (apply (bool_decide_unpack _); vm_compute; reflexivity).
  split; [exact Hkc|]. split.
  - exact (proj1 (deleted_rows_leave_the_lists hotel "r0" Hkc)).
  - exact (proj2 (deleted_rows_leave_the_lists hotel "t0" Hkc)).
Defined.

Lemma single_row_methods_resolve_iff_hotel :
  (rooms (db hotel) !! "r0" = Some room_a ∧ Room.deleted room_a = false) ∧
  (∃ v, (delete "r0" hotel).1 = inr v) ∧
  (roomTypes (db hotel) !! "t0" = Some deluxe ∧ RoomType.deleted deluxe = false) ∧
  (∃ v, (findOneRoomType "t0" hotel).1 = inr v).
Proof.
  assert (Hr : rooms (db hotel) !! "r0" = Some room_a) by (vm_compute; reflexivity).
  assert (Ht : roomTypes (db hotel) !! "t0" = Some deluxe)
    by (vm_compute; reflexivity).
  split; [by split|]. split.
  - apply (proj1 (proj2 (single_row_methods_resolve_iff hotel "r0"))).
    by exists room_a.
  - split; [by split|].
    apply (proj2 (proj2 (proj2 (single_row_methods_resolve_iff hotel "t0")))).
    by exists deluxe.
Defined.

Lemma writes_resolve_iff_hotel :
  (RoomValidation_CREATE (Validation:=nonempty_validation)
     (RoomCreateRequest.Make "t0" "available") =
     inr (RoomCreateRequest.Make "t0" "available") ∧
   is_Some (roomTypes (db hotel) !! "t0")) ∧
  (∃ v, (create (V:=nonempty_validation) (RoomCreateRequest.Make "t0" "available")
           hotel).1 = inr v) ∧
  ¬ (∃ v, (update (V:=nonempty_validation) "r2"
             (RoomUpdateRequest.Make "t0" None) hotel).1 = inr v).
Proof.
  assert (Hv : RoomValidation_CREATE (Validation:=nonempty_validation)
                 (RoomCreateRequest.Make "t0" "available") =
               inr (RoomCreateRequest.Make "t0" "available"))
    by (vm_compute; reflexivity).
  assert (Ht : roomTypes (db hotel) !! "t0" = Some deluxe)
    by (vm_compute; reflexivity).
  assert (Hc : rooms (db hotel) !! "r2" = Some room_c) by (vm_compute; reflexivity).
  destruct (writes_resolve_iff (V:=nonempty_validation) hotel)
    as (_ & Hcreate & _ & Hupdate).
  split; [split; [exact Hv | by exists deluxe]|]. split.
  - apply Hcreate. eexists. split; [exact Hv | by exists deluxe].
  - intros (_ & r & Hr & Hd)%Hupdate. rewrite Hc in Hr. injection Hr as <-.
    discriminate Hd.
Defined.

Lemma reachable_room_reads_resolve_scenario :
  reachable (V:=nonempty_validation)
    (after (V:=nonempty_validation) (Create (RoomCreateRequest.Make "0" "available"))
       after_deluxe) ∧
  ∃ responses,
    (findAll (after (V:=nonempty_validation)
                (Create (RoomCreateRequest.Make "0" "available")) after_deluxe)).1 =
      inr responses.
Proof.
  assert (Hreach : reachable (V:=nonempty_validation)
            (after (V:=nonempty_validation)
               (Create (RoomCreateRequest.Make "0" "available")) after_deluxe)).
  { apply reachable_call.
    apply (reachable_advance (V:=nonempty_validation) 5
             (after (V:=nonempty_validation) (CreateRoomType deluxe_request)
                empty_world)).
    apply reachable_call. apply reachable_start. }
  split; [exact Hreach|].
  exact (proj1 (reachable_room_reads_resolve (V:=nonempty_validation) _ Hreach)).
Defined.
